(** * NCBIRetriever: a shallow embedding of [s28382_2025-2.py]

    The script looks a taxon up at NCBI, runs a history search over the
    nucleotide database, fetches one page of GenBank records, keeps the
    records whose sequence length lies in a closed range and writes a CSV
    report and a plot.

    Modelling choices.
    - Python values: [str] is [string], [int] is [Z], a [dict] with string
      keys is a [gmap string string], [None]-or-value is [option].
    - Python list objects of records live in a store ([heap]); a variable
      of list type holds a reference ([loc]).  [sorted], a comprehension
      and [list(...)] allocate a new object.  The script never modifies a
      record ([SeqRecord]); records are values.
    - The instance attributes [webenv], [query_key] and [count] exist only
      after an assignment; [hasattr] is [is_Some] of an [option] field.
      There is one retriever object, as in [main].
    - The remote service and the GenBank parser are a parameter of the
      development ([World]): each call either returns a value or raises.
    - [print], [input], [DataFrame.to_csv] and [savefig] append an [event]
      to the [trace], and so does each remote request.  Writing to the
      terminal does not fail.  [generate_csv], [generate_plot] and [main]
      are the methods over a file system that accepts every write;
      [generate_csv_on], [generate_plot_on] and [main_on] take what the
      file system answers for a path as a parameter ([Disk]), and a write
      that is refused raises.
    - Text is ASCII; a [str] with other code points is outside the model.
    - Exceptions are instances of [Exception]; a computation ends in
      [Returned v] or [Raised e].  Signals outside [Exception]
      ([KeyboardInterrupt], [SystemExit]) are not modelled. *)

From Stdlib Require Import Ascii.
From stdpp Require Import base strings list gmap pretty sorting.

Open Scope string_scope.
Open Scope list_scope.
Open Scope Z_scope.

(** ** Values *)

Module SeqRecord.
Record t : Type := mk { id : string; seq : string; description : string }.
End SeqRecord.

#[global] Instance SeqRecord_eq_dec : EqDecision SeqRecord.t.
Proof. solve_decision. Defined.

(** [len(rec.seq)] *)
Definition seq_len (rec : SeqRecord.t) : Z :=
  Z.of_nat (String.length (SeqRecord.seq rec)).

Inductive exn : Type :=
| IndexError                      (* [records[0]] on an empty list *)
| KeyError (key : string)         (* [d[key]] with [key] absent *)
| ValueError (literal : string)   (* [int(s)] on a malformed literal *)
| TypeError                       (* an argument that is not a list object *)
| EOFError                        (* [input()] at end of input *)
| OSError (msg : string)          (* a file that cannot be written *)
| LibraryError (msg : string).    (* raised inside Bio.Entrez or Bio.SeqIO *)

Inductive outcome (A : Type) : Type :=
| Returned (a : A)
| Raised (e : exn).
Arguments Returned {A} a.
Arguments Raised {A} e.

(** The keyword arguments of the nucleotide [Entrez.efetch] call. *)
Record efetch_request : Type := mkRequest {
  db : string;
  rettype : string;
  retmode : string;
  retstart : Z;
  retmax : Z;
  req_webenv : string;
  req_query_key : string
}.

(** What [to_csv] writes: rows of cells. *)
Inductive cell : Type :=
| CStr (s : string)
| CInt (n : Z).

Record DataFrame : Type := mkDataFrame {
  columns : list string;
  data : list (list cell)
}.

(** The figure handed to [plt.savefig]. *)
Record figure : Type := mkFigure {
  figsize : Z * Z;
  plot_x : list string;
  plot_y : list Z;
  marker : string;
  xticks_rotation : Z;
  title : string;
  xlabel : string;
  ylabel : string
}.

Inductive event : Type :=
| Print (s : string)
| PrintExn (s : string) (e : exn)       (* [print(f"<s>{e}")] *)
| Prompt (s : string)                   (* the prompt of [input] *)
| TaxonomyRequest (taxid : string)      (* [Entrez.efetch(db="taxonomy", ...)] *)
| SearchRequest (term : string)         (* [Entrez.esearch(db="nucleotide", ...)] *)
| FetchRequest (req : efetch_request)   (* [Entrez.efetch(db="nucleotide", ...)] *)
| WriteCsv (filename : string) (rows : list (list cell))
| Savefig (filename : string) (fig : figure).

(** ** The environment *)

Record World : Type := mkWorld {
  (* [Entrez.read(Entrez.efetch(db="taxonomy", id=taxid, retmode="xml"))] *)
  taxonomy_lookup : string → outcome (list (gmap string string));
  (* [Entrez.read(Entrez.esearch(db="nucleotide", term=..., usehistory="y"))] *)
  esearch : string → outcome (gmap string string);
  (* [Entrez.efetch(db="nucleotide", ...)]: the text behind the handle *)
  efetch : efetch_request → outcome string;
  (* [list(SeqIO.parse(handle, "gb"))] *)
  SeqIO_parse : string → outcome (list SeqRecord.t)
}.

(** ** The state *)

Definition loc := nat.

Record state : Type := mkState {
  Entrez_email : option string;
  Entrez_api_key : option string;
  Entrez_tool : option string;
  webenv : option string;
  query_key : option string;
  count : option Z;
  heap : list (list SeqRecord.t);
  stdin : list string;
  trace : list event
}.

Definition set_Entrez (email api_key tool : string) (σ : state) : state :=
  mkState (Some email) (Some api_key) (Some tool)
          (webenv σ) (query_key σ) (count σ) (heap σ) (stdin σ) (trace σ).

Definition set_webenv (w : string) (σ : state) : state :=
  mkState (Entrez_email σ) (Entrez_api_key σ) (Entrez_tool σ)
          (Some w) (query_key σ) (count σ) (heap σ) (stdin σ) (trace σ).

Definition set_query_key (q : string) (σ : state) : state :=
  mkState (Entrez_email σ) (Entrez_api_key σ) (Entrez_tool σ)
          (webenv σ) (Some q) (count σ) (heap σ) (stdin σ) (trace σ).

Definition set_count (c : Z) (σ : state) : state :=
  mkState (Entrez_email σ) (Entrez_api_key σ) (Entrez_tool σ)
          (webenv σ) (query_key σ) (Some c) (heap σ) (stdin σ) (trace σ).

Definition set_heap (h : list (list SeqRecord.t)) (σ : state) : state :=
  mkState (Entrez_email σ) (Entrez_api_key σ) (Entrez_tool σ)
          (webenv σ) (query_key σ) (count σ) h (stdin σ) (trace σ).

Definition set_stdin (i : list string) (σ : state) : state :=
  mkState (Entrez_email σ) (Entrez_api_key σ) (Entrez_tool σ)
          (webenv σ) (query_key σ) (count σ) (heap σ) i (trace σ).

Definition log (e : event) (σ : state) : state :=
  mkState (Entrez_email σ) (Entrez_api_key σ) (Entrez_tool σ)
          (webenv σ) (query_key σ) (count σ) (heap σ) (stdin σ) (trace σ ++ [e]).

(** ** The monad of the script: state and exceptions *)

Definition M (A : Type) : Type := state → outcome A * state.

#[global] Instance M_ret : MRet M := λ A a σ, (Returned a, σ).

#[global] Instance M_bind : MBind M := λ A B f m σ,
  match m σ with
  | (Returned a, σ') => f a σ'
  | (Raised e, σ') => (Raised e, σ')
  end.

Definition raise {A} (e : exn) : M A := λ σ, (Raised e, σ).

(** [try: body except Exception as e: handler e] *)
Definition try_except {A} (body : M A) (handler : exn → M A) : M A := λ σ,
  match body σ with
  | (Returned a, σ') => (Returned a, σ')
  | (Raised e, σ') => handler e σ'
  end.

Definition modify (f : state → state) : M unit := λ σ, (Returned (), f σ).

Definition get {A} (f : state → A) : M A := λ σ, (Returned (f σ), σ).

Definition lift {A} (o : outcome A) : M A := λ σ, (o, σ).

(** ** Builtins *)

Definition print (s : string) : M unit := modify (log (Print s)).

Definition print_exn (s : string) (e : exn) : M unit := modify (log (PrintExn s e)).

(** [input(prompt)] *)
Definition input (prompt : string) : M string := λ σ,
  match stdin σ with
  | line :: rest => (Returned line, set_stdin rest (log (Prompt prompt) σ))
  | [] => (Raised EOFError, log (Prompt prompt) σ)
  end.

(** [l[0]] *)
Definition first {A} (l : list A) : M A :=
  match l with
  | x :: _ => mret x
  | [] => raise IndexError
  end.

(** [d[key]] *)
Definition getitem (d : gmap string string) (key : string) : M string :=
  match d !! key with
  | Some v => mret v
  | None => raise (KeyError key)
  end.

(** A new list object holding [v]. *)
Definition new_list (v : list SeqRecord.t) : M loc := λ σ,
  (Returned (length (heap σ)), set_heap (heap σ ++ [v]) σ).

(** The elements of the list object at [l]. *)
Definition read_list (l : loc) : M (list SeqRecord.t) := λ σ,
  match heap σ !! l with
  | Some v => (Returned v, σ)
  | None => (Raised TypeError, σ)
  end.

(** [int(s)] on ASCII text: surrounding white space (tab, line feed,
    vertical tab, form feed, carriage return, space), an optional sign,
    decimal digits with single underscores between digits, and no more
    digits than the interpreter's limit for the conversion of text. *)
Definition is_space (a : ascii) : bool :=
  let n := nat_of_ascii a in
  ((9 <=? n)%nat && (n <=? 13)%nat) || (n =? 32)%nat.

(** [sys.get_int_max_str_digits()], which the script leaves at its default. *)
Definition max_str_digits : Z := 4300.

Definition digit_val (a : ascii) : option Z :=
  let n := nat_of_ascii a in
  if ((48 <=? n)%nat && (n <=? 57)%nat) then Some (Z.of_nat n - 48) else None.

Fixpoint lstrip (l : list ascii) : list ascii :=
  match l with
  | a :: l' => if is_space a then lstrip l' else l
  | [] => []
  end.

Definition strip (l : list ascii) : list ascii :=
  reverse (lstrip (reverse (lstrip l))).

Fixpoint parse_digits (acc : Z) (after_digit : bool) (l : list ascii) : option Z :=
  match l with
  | [] => if after_digit then Some acc else None
  | a :: l' =>
      if decide (a = "_"%char)
      then (if after_digit then parse_digits acc false l' else None)
      else match digit_val a with
           | Some d => parse_digits (10 * acc + d) true l'
           | None => None
           end
  end.

Definition int (s : string) : outcome Z :=
  let body := strip (Stdlib.Strings.String.list_ascii_of_string s) in
  let '(negative, digits) :=
    match body with
    | a :: r => if decide (a = "-"%char) then (true, r)
                else if decide (a = "+"%char) then (false, r)
                else (false, body)
    | [] => (false, body)
    end in
  match parse_digits 0 false digits with
  | Some n =>
      if max_str_digits <? Z.of_nat (length (filter (λ a, a ≠ "_"%char) digits))
      then Raised (ValueError s)
      else Returned (if negative : bool then - n else n)
  | None => Raised (ValueError s)
  end.

(** [sorted(l, key=key, reverse=reverse)]: a stable sort.  An element is
    placed in front of the first element that does not strictly precede
    it, so that elements with equal keys keep the order of the input. *)
Section sorted.
Context {A : Type} (key : A → Z) (reverse : bool).

Definition precedes (a b : A) : bool :=
  if reverse then key b <? key a else key a <? key b.

Fixpoint insert_sorted (x : A) (l : list A) : list A :=
  match l with
  | [] => [x]
  | y :: l' => if precedes y x then y :: insert_sorted x l' else x :: y :: l'
  end.

Fixpoint sorted (l : list A) : list A :=
  match l with
  | [] => []
  | x :: l' => insert_sorted x (sorted l')
  end.
End sorted.

(** [DataFrame.to_csv(filename, index=index)]: the header row, then one
    row per data row; with [index] every row starts with its label. *)
Definition to_csv_rows (df : DataFrame) (index : bool) : list (list cell) :=
  if index
  then (CStr "" :: (CStr <$> columns df))
         :: imap (λ i row, CInt (Z.of_nat i) :: row) (data df)
  else (CStr <$> columns df) :: data df.

(** The write of the table, on a file system that accepts it; [to_csv_on]
    below takes the answer of the file system as a parameter. *)
Definition to_csv (df : DataFrame) (filename : string) (index : bool) : M unit :=
  modify (log (WriteCsv filename (to_csv_rows df index))).

(** [plt.savefig(filename)], on a file system that accepts the write;
    [savefig_on] below takes the answer of the file system as a parameter. *)
Definition savefig (filename : string) (fig : figure) : M unit :=
  modify (log (Savefig filename fig)).

(** A remote request: it is recorded, then the service answers or raises. *)
Definition remote {A} (request : event) (answer : outcome A) : M A :=
  modify (log request);; lift answer.

(** ** The class [NCBIRetriever] and [main] *)

Section NCBIRetriever.
Variable W : World.

(** [__init__] *)
Definition NCBIRetriever_init (email api_key : string) : M unit :=
  modify (set_Entrez email api_key "BioScriptEx10").

Definition search_taxid (taxid : string) : M (option Z) :=
  print ("Searching for records with taxID: " +:+ taxid);;
  try_except
    (records ← remote (TaxonomyRequest taxid) (taxonomy_lookup W taxid);
     record ← first records;
     organism_name ← getitem record "ScientificName";
     print ("Organism: " +:+ organism_name +:+ " (TaxID: " +:+ taxid +:+ ")");;
     let term := "txid" +:+ taxid +:+ "[Organism]" in
     search_results ← remote (SearchRequest term) (esearch W term);
     text ← getitem search_results "Count";
     count ← lift (int text);
     print ("Found " +:+ pretty count +:+ " records for " +:+ organism_name
            +:+ " (TaxID: " +:+ taxid +:+ ")");;
     if decide (count = 0) then mret None
     else
       w ← getitem search_results "WebEnv";
       modify (set_webenv w);;
       q ← getitem search_results "QueryKey";
       modify (set_query_key q);;
       modify (set_count count);;
       mret (Some count))
    (λ e, print_exn ("Error searching TaxID " +:+ taxid +:+ ": ") e;;
          mret None).

Definition fetch_records (start max_records : Z) : M loc :=
  w ← get webenv;
  q ← get query_key;
  match w, q with
  | Some w, Some q =>
      try_except
        (let batch_size := Z.min max_records 500 in
         let request := mkRequest "nucleotide" "gb" "text" start batch_size w q in
         handle ← remote (FetchRequest request) (efetch W request);
         parsed ← lift (SeqIO_parse W handle);
         records ← new_list parsed;
         mret records)
        (λ e, print_exn "Error fetching records: " e;;
              new_list [])
  | _, _ =>
      print "No search results to fetch. Run search_taxid() first.";;
      new_list []
  end.

Definition filter_by_length (records : loc) (min_len max_len : Z) : M loc :=
  rs ← read_list records;
  new_list (filter (λ rec, min_len ≤ seq_len rec ≤ max_len) rs).

Definition generate_csv (records : loc) (filename : string) : M unit :=
  rs ← read_list records;
  let data := (λ record, [CStr (SeqRecord.id record);
                          CInt (seq_len record);
                          CStr (SeqRecord.description record)]) <$> rs in
  to_csv (mkDataFrame ["Accession number"; "Length"; "Description"] data)
         filename false;;
  print ("Saved CSV report to " +:+ filename).

Definition generate_plot (records : loc) (filename : string) : M unit :=
  rs ← read_list records;
  sorted_records ← new_list (sorted seq_len true rs);
  srs ← read_list sorted_records;
  let args := SeqRecord.id <$> srs in
  let lengths := seq_len <$> srs in
  savefig filename
    (mkFigure (20, 5) args lengths "o" 90
              "GenBank Record Lengths" "Accession number" "Sequence length");;
  print ("Saved plot to " +:+ filename).

(** [not count] for [count] an [int] or [None] *)
Definition falsy (count : option Z) : bool :=
  match count with
  | None => true
  | Some n => bool_decide (n = 0)
  end.

Definition main : M unit :=
  email ← input "Enter your email address for NCBI: ";
  api_key ← input "Enter your NCBI API key: ";
  NCBIRetriever_init email api_key;;
  taxid ← input "Enter taxonomic ID (taxid) of the organism: ";
  min_text ← input "Enter minimum sequence length: ";
  min_len ← lift (int min_text);
  max_text ← input "Enter maximum sequence length: ";
  max_len ← lift (int max_text);
  count ← search_taxid taxid;
  if falsy count then
    print "No records found. Exiting."
  else
    print (String "010" "Fetching records...");;
    all_records ← fetch_records 0 200;
    fetched ← read_list all_records;
    print ("Fetched " +:+ pretty (length fetched) +:+ " records. Filtering by length...");;
    filtered ← filter_by_length all_records min_len max_len;
    kept ← read_list filtered;
    match kept with
    | [] => print "No records matched the length criteria."
    | _ :: _ =>
        let csv_file := "taxid_" +:+ taxid +:+ "_report.csv" in
        generate_csv filtered csv_file;;
        let plot_file := "taxid_" +:+ taxid +:+ "_plot.png" in
        generate_plot filtered plot_file
    end.
End NCBIRetriever.

(** ** Observations on a run *)

(** The events a computation appended in going from [σ] to [σ']. *)
Definition new_events (σ σ' : state) : list event :=
  drop (length (trace σ)) (trace σ').

(** The nucleotide pages requested in a sequence of events. *)
Definition fetch_requests (evs : list event) : list efetch_request :=
  omap (λ ev, match ev with FetchRequest r => Some r | _ => None end) evs.

(** Events that come from inside [fetch_records]. *)
Definition fetch_event (ev : event) : bool :=
  match ev with
  | FetchRequest _ => true
  | PrintExn s _ => bool_decide (s = "Error fetching records: ")
  | Print s => bool_decide (s = "No search results to fetch. Run search_taxid() first.")
  | _ => false
  end.

(** Events that create an output file. *)
Definition file_event (ev : event) : bool :=
  match ev with
  | WriteCsv _ _ | Savefig _ _ => true
  | _ => false
  end.

(** [hasattr(self, 'webenv') and hasattr(self, 'query_key')] *)
Definition has_session (σ : state) : Prop :=
  is_Some (webenv σ) ∧ is_Some (query_key σ).

(** The diagnostic of [fetch_records] when no handle is stored. *)
Definition no_session_message : string :=
  "No search results to fetch. Run search_taxid() first.".

(** The page that [fetch_records] asks for in a state holding the handle
    [(w, q)]. *)
Definition page_request (start max_records : Z) (w q : string) : efetch_request :=
  mkRequest "nucleotide" "gb" "text" start (Z.min max_records 500) w q.

(** The search term built from a taxon id. *)
Definition search_term (taxid : string) : string :=
  "txid" +:+ taxid +:+ "[Organism]".

(** Both lookup steps of [search_taxid] answer: the taxon is called
    [name] and the search reply is [reply], whose count reads [n]. *)
Definition search_answers (W : World) (taxid name : string)
    (reply : gmap string string) (n : Z) : Prop :=
  ∃ record rest text,
    taxonomy_lookup W taxid = Returned (record :: rest) ∧
    record !! "ScientificName" = Some name ∧
    esearch W (search_term taxid) = Returned reply ∧
    reply !! "Count" = Some text ∧
    int text = Returned n.

(** One of the two lookup steps of [search_taxid] raises [e]. *)
Definition remote_error (W : World) (taxid : string) (e : exn) : Prop :=
  taxonomy_lookup W taxid = Raised e ∨
  ∃ record rest name,
    taxonomy_lookup W taxid = Returned (record :: rest) ∧
    record !! "ScientificName" = Some name ∧
    esearch W (search_term taxid) = Raised e.

(** The message of [search_taxid] once the count is known. *)
Definition found_message (n : Z) (name taxid : string) : string :=
  "Found " +:+ pretty n +:+ " records for " +:+ name +:+ " (TaxID: " +:+ taxid +:+ ")".

Definition search_error_prefix (taxid : string) : string :=
  "Error searching TaxID " +:+ taxid +:+ ": ".

(** ** Histories of method calls on one retriever *)

Inductive call : Type :=
| Search (W : World) (taxid : string)
| Fetch (W : World) (start max_records : Z)
| Filter (records : loc) (min_len max_len : Z)
| Csv (records : loc) (filename : string)
| Plot (records : loc) (filename : string).

(** The state after a call, whatever it returned. *)
Definition run_call (c : call) (σ : state) : state :=
  match c with
  | Search W taxid => (search_taxid W taxid σ).2
  | Fetch W start max_records => (fetch_records W start max_records σ).2
  | Filter records min_len max_len => (filter_by_length records min_len max_len σ).2
  | Csv records filename => (generate_csv records filename σ).2
  | Plot records filename => (generate_plot records filename σ).2
  end.

Definition run_calls (cs : list call) (σ : state) : state :=
  foldl (λ σ c, run_call c σ) σ cs.

(** An event that is neither an event of [fetch_records] nor the creation
    of a file. *)
Definition quiet (ev : event) : Prop :=
  fetch_event ev = false ∧ file_event ev = false.

(** The instance attributes of the retriever are the same in two states. *)
Definition same_attributes (σ σ' : state) : Prop :=
  webenv σ' = webenv σ ∧ query_key σ' = query_key σ ∧ count σ' = count σ.

(** A search reply that carries a [WebEnv] also carries a [QueryKey]. *)
Definition whole_handle (W : World) (taxid : string) : Prop :=
  ∀ reply, esearch W (search_term taxid) = Returned reply →
           is_Some (reply !! "WebEnv") → is_Some (reply !! "QueryKey").

(** ** Sample data *)

Definition record_A1 : SeqRecord.t :=
  SeqRecord.mk "A1" "ACGTA" "Homo sapiens clone 1".
Definition record_A2 : SeqRecord.t :=
  SeqRecord.mk "A2" "ACGTACGTACGTACG" "Homo sapiens clone 2".
Definition record_A3 : SeqRecord.t :=
  SeqRecord.mk "A3" "ACGTACGTACGTACGTACGTACGTACGTAC" "Homo sapiens clone 3".
Definition record_A4 : SeqRecord.t :=
  SeqRecord.mk "A4" "TTTTTTTTTTTTTTT" "Homo sapiens clone 4".

Definition human : list (gmap string string) :=
  [ {[ "ScientificName" := "Homo sapiens" ]} ].

Definition gateway_error : exn := LibraryError "HTTP Error 502: Bad Gateway".

(** A service that finds three records and serves them. *)
Definition W_found : World :=
  mkWorld (λ _, Returned human)
          (λ _, Returned (<["Count" := "3"]> (<["WebEnv" := "WE2"]> {[ "QueryKey" := "1" ]})))
          (λ _, Returned "LOCUS ...")
          (λ _, Returned [record_A1; record_A2; record_A3]).

(** A service that knows the taxon and finds no record. *)
Definition W_empty : World :=
  mkWorld (λ _, Returned human)
          (λ _, Returned (<["Count" := "0"]> (<["WebEnv" := "WE2"]> {[ "QueryKey" := "1" ]})))
          (λ _, Returned "")
          (λ _, Returned []).

(** A service that is down. *)
Definition W_down : World :=
  mkWorld (λ _, Raised gateway_error) (λ _, Raised gateway_error)
          (λ _, Raised gateway_error) (λ _, Returned []).

(** A service whose pages do not parse. *)
Definition W_garbled : World :=
  mkWorld (λ _, Returned human)
          (λ _, Returned (<["Count" := "3"]> (<["WebEnv" := "WE2"]> {[ "QueryKey" := "1" ]})))
          (λ _, Returned "<html>")
          (λ _, Raised (LibraryError "Premature end of line")).

(** A service whose search reply has a [WebEnv] and no [QueryKey]. *)
Definition W_partial : World :=
  mkWorld (λ _, Returned human)
          (λ _, Returned (<["Count" := "5"]> {[ "WebEnv" := "WE2" ]}))
          (λ _, Returned "LOCUS ...")
          (λ _, Returned [record_A1]).

(** A retriever before any search, and one after a successful search. *)
Definition fresh_state : state :=
  mkState (Some "me@example.org") (Some "key") (Some "BioScriptEx10")
          None None None [] [] [].

Definition session_state : state :=
  mkState (Some "me@example.org") (Some "key") (Some "BioScriptEx10")
          (Some "WE1") (Some "7") (Some 3) [] [] [].

(** ** What the length filter is meant to compute

    Written from the description of the filter, not from its code: [S] is
    the subsequence of [R] made of the records whose length lies in
    [[lo, hi]], in the order of [R]. *)
Inductive in_range_subsequence (lo hi : Z) :
    list SeqRecord.t → list SeqRecord.t → Prop :=
| subsequence_nil :
    in_range_subsequence lo hi [] []
| subsequence_keep r R S :
    lo ≤ seq_len r ≤ hi →
    in_range_subsequence lo hi R S →
    in_range_subsequence lo hi (r :: R) (r :: S)
| subsequence_drop r R S :
    ¬ (lo ≤ seq_len r ≤ hi) →
    in_range_subsequence lo hi R S →
    in_range_subsequence lo hi (r :: R) S.

(** The order that [sorted(..., key=key, reverse=reverse)] establishes. *)
Definition in_order {A} (key : A → Z) (reverse : bool) (a b : A) : Prop :=
  if reverse then key b ≤ key a else key a ≤ key b.

(** The row of the report for one record. *)
Definition report_row (record : SeqRecord.t) : list cell :=
  [CStr (SeqRecord.id record); CInt (seq_len record);
   CStr (SeqRecord.description record)].

Definition report_header : list cell :=
  [CStr "Accession number"; CStr "Length"; CStr "Description"].

(** A store holding one list of four records. *)
Definition four_records : list SeqRecord.t :=
  [record_A1; record_A2; record_A3; record_A4].

Definition store_state : state :=
  mkState (Some "me@example.org") (Some "key") (Some "BioScriptEx10")
          (Some "WE1") (Some "7") (Some 4) [four_records] [] [].

(** ** Further observations *)

(** The name that the taxonomy lookup yields, if it yields one. *)
Definition organism (W : World) (taxid : string) : option string :=
  match taxonomy_lookup W taxid with
  | Returned (record :: _) => record !! "ScientificName"
  | _ => None
  end.

(** Events that are a request to the remote service. *)
Definition request_event (ev : event) : bool :=
  match ev with
  | TaxonomyRequest _ | SearchRequest _ | FetchRequest _ => true
  | _ => false
  end.

(** The remote requests in a sequence of events, in order. *)
Definition remote_requests (evs : list event) : list event :=
  filter (λ ev, request_event ev = true) evs.

(** The files written in a sequence of events, in order. *)
Definition file_events (evs : list event) : list event :=
  filter (λ ev, file_event ev = true) evs.

(** A failure of [search_taxid] that is raised by the script's own
    subscripts and conversion, not by the service. *)
Inductive local_error (W : World) (taxid : string) : exn → Prop :=
| unknown_taxon :
    taxonomy_lookup W taxid = Returned [] →
    local_error W taxid IndexError
| no_scientific_name :
    (∃ record rest, taxonomy_lookup W taxid = Returned (record :: rest) ∧
                    record !! "ScientificName" = None) →
    local_error W taxid (KeyError "ScientificName")
| no_count name reply :
    organism W taxid = Some name →
    esearch W (search_term taxid) = Returned reply →
    reply !! "Count" = None →
    local_error W taxid (KeyError "Count")
| bad_count name reply text :
    organism W taxid = Some name →
    esearch W (search_term taxid) = Returned reply →
    reply !! "Count" = Some text →
    int text = Raised (ValueError text) →
    local_error W taxid (ValueError text)
| no_webenv name reply n :
    search_answers W taxid name reply n →
    n ≠ 0 →
    reply !! "WebEnv" = None →
    local_error W taxid (KeyError "WebEnv").

(** The records that [fetch_records] returns for the handle [(w, q)]:
    the parsed page, or nothing when the call or the parse raises. *)
Definition fetched_page (W : World) (start max_records : Z) (w q : string) :
    list SeqRecord.t :=
  match efetch W (page_request start max_records w q) with
  | Returned handle =>
      match SeqIO_parse W handle with
      | Returned parsed => parsed
      | Raised _ => []
      end
  | Raised _ => []
  end.

(** What the instance attributes can be after any history of calls on a
    new retriever. *)
Definition consistent (σ : state) : Prop :=
  (is_Some (query_key σ) ↔ is_Some (count σ)) ∧
  (is_Some (query_key σ) → is_Some (webenv σ)) ∧
  count σ ≠ Some 0.

(** A service that does not know the taxon. *)
Definition W_unknown : World :=
  mkWorld (λ _, Returned []) (λ _, Raised gateway_error)
          (λ _, Raised gateway_error) (λ _, Returned []).

(** A character that [int] takes neither for white space nor for a sign. *)
Definition plain (a : ascii) : Prop :=
  is_space a = false ∧ a ≠ "-"%char ∧ a ≠ "+"%char ∧ a ≠ "_"%char.

(** The characters of a string, as [int] scans them. *)
Definition chars (s : string) : list ascii :=
  Stdlib.Strings.String.list_ascii_of_string s.

(** ** File writes that can be refused

    What writing to a path gives: the write is done, or it raises (a
    directory that does not exist, a lack of permission, a format that
    [savefig] does not know). *)
Definition Disk : Type := string → outcome unit.

(** The file system that accepts every write. *)
Definition reliable : Disk := λ _, Returned ().

Section on_disk.
Variable W : World.
Variable disk : Disk.

(** [DataFrame.to_csv(filename, index=index)] *)
Definition to_csv_on (df : DataFrame) (filename : string) (index : bool) : M unit :=
  lift (disk filename);;
  modify (log (WriteCsv filename (to_csv_rows df index))).

(** [plt.savefig(filename)] *)
Definition savefig_on (filename : string) (fig : figure) : M unit :=
  lift (disk filename);;
  modify (log (Savefig filename fig)).

Definition generate_csv_on (records : loc) (filename : string) : M unit :=
  rs ← read_list records;
  let data := (λ record, [CStr (SeqRecord.id record);
                          CInt (seq_len record);
                          CStr (SeqRecord.description record)]) <$> rs in
  to_csv_on (mkDataFrame ["Accession number"; "Length"; "Description"] data)
            filename false;;
  print ("Saved CSV report to " +:+ filename).

Definition generate_plot_on (records : loc) (filename : string) : M unit :=
  rs ← read_list records;
  sorted_records ← new_list (sorted seq_len true rs);
  srs ← read_list sorted_records;
  let args := SeqRecord.id <$> srs in
  let lengths := seq_len <$> srs in
  savefig_on filename
    (mkFigure (20, 5) args lengths "o" 90
              "GenBank Record Lengths" "Accession number" "Sequence length");;
  print ("Saved plot to " +:+ filename).

Definition main_on : M unit :=
  email ← input "Enter your email address for NCBI: ";
  api_key ← input "Enter your NCBI API key: ";
  NCBIRetriever_init email api_key;;
  taxid ← input "Enter taxonomic ID (taxid) of the organism: ";
  min_text ← input "Enter minimum sequence length: ";
  min_len ← lift (int min_text);
  max_text ← input "Enter maximum sequence length: ";
  max_len ← lift (int max_text);
  count ← search_taxid W taxid;
  if falsy count then
    print "No records found. Exiting."
  else
    print (String "010" "Fetching records...");;
    all_records ← fetch_records W 0 200;
    fetched ← read_list all_records;
    print ("Fetched " +:+ pretty (length fetched) +:+ " records. Filtering by length...");;
    filtered ← filter_by_length all_records min_len max_len;
    kept ← read_list filtered;
    match kept with
    | [] => print "No records matched the length criteria."
    | _ :: _ =>
        let csv_file := "taxid_" +:+ taxid +:+ "_report.csv" in
        generate_csv_on filtered csv_file;;
        let plot_file := "taxid_" +:+ taxid +:+ "_plot.png" in
        generate_plot_on filtered plot_file
    end.
End on_disk.

(** A file system without the directory [no/such]. *)
Definition missing_directory : exn := OSError "No such file or directory".

Definition disk_without_directory : Disk := λ path,
  if decide (path = "taxid_no/such_report.csv") then Raised missing_directory
  else if decide (path = "taxid_no/such_plot.png") then Raised missing_directory
  else Returned ().

(** A file system on which the plot of taxon 9606 cannot be written. *)
Definition disk_without_plot : Disk := λ path,
  if decide (path = "taxid_9606_plot.png") then Raised (OSError "Permission denied")
  else Returned ().

(** The text of [k] digits 9. *)
Definition nines (k : nat) : string :=
  Stdlib.Strings.String.string_of_list_ascii (replicate k "9"%char).

(** ** Proof support *)

Ltac unfold_M :=
  unfold try_except, remote, lift, get, print, print_exn, modify, raise,
    new_list, read_list, to_csv, savefig, getitem, first;
  unfold mbind, M_bind, mret, M_ret.

Lemma new_events_app σ σ' evs :
  trace σ' = trace σ ++ evs → new_events σ σ' = evs.
Proof. intros H. unfold new_events. by rewrite H, drop_app_length. Qed.

Lemma lookup_new_object {A} (h : list A) (v : A) :
  (h ++ [v]) !! length h = Some v.
Proof. by rewrite list_lookup_middle. Qed.

Lemma lookup_old_object {A} (h : list A) (v w : A) (l : nat) :
  h !! l = Some w → (h ++ [v]) !! l = Some w.
Proof. apply lookup_app_l_Some. Qed.

(** ** [fetch_records] *)

Lemma fetch_records_no_session W start max_records σ :
  webenv σ = None ∨ query_key σ = None →
  fetch_records W start max_records σ =
    (Returned (length (heap σ)),
     set_heap (heap σ ++ [[]]) (log (Print no_session_message) σ)).
Proof.
  intros H. unfold fetch_records. unfold_M.
  destruct H as [H|H]; simpl; rewrite H; [|destruct (webenv σ)]; done.
Qed.

Lemma fetch_records_session W start max_records σ w q :
  webenv σ = Some w → query_key σ = Some q →
  let request := page_request start max_records w q in
  let σ1 := log (FetchRequest request) σ in
  fetch_records W start max_records σ =
    match efetch W request with
    | Returned handle =>
        match SeqIO_parse W handle with
        | Returned parsed =>
            (Returned (length (heap σ)), set_heap (heap σ ++ [parsed]) σ1)
        | Raised e =>
            (Returned (length (heap σ)),
             set_heap (heap σ ++ [[]]) (log (PrintExn "Error fetching records: " e) σ1))
        end
    | Raised e =>
        (Returned (length (heap σ)),
         set_heap (heap σ ++ [[]]) (log (PrintExn "Error fetching records: " e) σ1))
    end.
Proof.
  intros Hw Hq. unfold fetch_records, page_request. unfold_M.
  simpl. rewrite Hw, Hq. simpl.
  destruct (efetch W _) as [handle|e]; simpl; [|done].
  destruct (SeqIO_parse W handle) as [parsed|e]; done.
Qed.

(** ** [search_taxid] *)

(** Case analysis on a scrutinee that is not itself a case analysis. *)
Ltac case_inner :=
  match goal with
  | |- context [match ?x with _ => _ end] =>
      lazymatch x with
      | context [match _ with _ => _ end] => fail
      | _ => destruct x eqn:?
      end
  end.

(** Case analysis along the body of [search_taxid]: the answer of each
    remote call, each subscript and the parse of the count. *)
Ltac search_cases :=
  unfold search_taxid; unfold_M; simpl;
  repeat (case_inner; simpl); try done.

Lemma search_taxid_result_state_independent W taxid σ σ' :
  (search_taxid W taxid σ).1 = (search_taxid W taxid σ').1.
Proof. search_cases. Qed.


Lemma search_taxid_count W taxid name reply n σ :
  search_answers W taxid name reply n →
  let σ1 :=
    log (Print (found_message n name taxid))
      (log (SearchRequest (search_term taxid))
        (log (Print ("Organism: " +:+ name +:+ " (TaxID: " +:+ taxid +:+ ")"))
          (log (TaxonomyRequest taxid)
            (log (Print ("Searching for records with taxID: " +:+ taxid)) σ)))) in
  search_taxid W taxid σ =
    if decide (n = 0) then (Returned None, σ1)
    else match reply !! "WebEnv" with
         | None => (Returned None,
                    log (PrintExn (search_error_prefix taxid) (KeyError "WebEnv")) σ1)
         | Some w =>
             match reply !! "QueryKey" with
             | None => (Returned None,
                        log (PrintExn (search_error_prefix taxid) (KeyError "QueryKey"))
                            (set_webenv w σ1))
             | Some q => (Returned (Some n), set_count n (set_query_key q (set_webenv w σ1)))
             end
         end.
Proof.
  intros (record & rest & text & Htax & Hname & Hsearch & Hcount & Hint).
  unfold search_term in Hsearch.
  unfold search_taxid. unfold_M. simpl.
  rewrite Htax. simpl. rewrite Hname. simpl. rewrite Hsearch. simpl.
  rewrite Hcount. simpl. rewrite Hint. simpl.
  destruct (decide (n = 0)); [done|].
  destruct (reply !! "WebEnv"); simpl; [|done].
  destruct (reply !! "QueryKey"); done.
Qed.

Lemma search_taxid_remote_error W taxid e σ :
  remote_error W taxid e →
  ∃ σ1, search_taxid W taxid σ =
          (Returned None, log (PrintExn (search_error_prefix taxid) e) σ1) ∧
        webenv σ1 = webenv σ ∧ query_key σ1 = query_key σ ∧ count σ1 = count σ ∧
        heap σ1 = heap σ.
Proof.
  intros [Htax | (record & rest & name & Htax & Hname & Hsearch)];
    unfold search_term in *; unfold search_taxid; unfold_M; simpl.
  - rewrite Htax. simpl. by eexists.
  - rewrite Htax. simpl. rewrite Hname. simpl. rewrite Hsearch. simpl. by eexists.
Qed.

Lemma bool_decide_false_of_ne {A} `{EqDecision A} (x y : A) :
  x ≠ y → bool_decide (x = y) = false.
Proof. intros. by apply bool_decide_eq_false. Qed.

Create HintDb quiet.

Lemma quiet_found n name taxid : quiet (Print (found_message n name taxid)).
Proof.
  split; [|done]. apply bool_decide_false_of_ne.
  intros H. vm_compute in H. discriminate.
Qed.

Lemma quiet_organism name taxid :
  quiet (Print ("Organism: " +:+ name +:+ " (TaxID: " +:+ taxid +:+ ")")).
Proof.
  split; [|done]. apply bool_decide_false_of_ne.
  intros H. vm_compute in H. discriminate.
Qed.

Lemma quiet_searching taxid :
  quiet (Print ("Searching for records with taxID: " +:+ taxid)).
Proof.
  split; [|done]. apply bool_decide_false_of_ne.
  intros H. vm_compute in H. discriminate.
Qed.

Lemma quiet_search_error taxid e :
  quiet (PrintExn ("Error searching TaxID " +:+ taxid +:+ ": ") e).
Proof.
  split; [|done]. apply bool_decide_false_of_ne.
  intros H. vm_compute in H. discriminate.
Qed.

#[local] Hint Resolve quiet_found quiet_organism quiet_searching
  quiet_search_error : quiet.

Lemma quiet_request_taxonomy taxid : quiet (TaxonomyRequest taxid).
Proof. done. Qed.

Lemma quiet_request_search term : quiet (SearchRequest term).
Proof. done. Qed.

#[local] Hint Resolve quiet_request_taxonomy quiet_request_search : quiet.

Ltac quiet_events :=
  repeat first
    [ apply Forall_nil_2
    | apply Forall_cons_2; [first [apply quiet_found | auto with quiet]|] ].

(** [search_taxid] touches neither the list objects nor the input, and
    what it appends to the trace is prints and its two requests. *)
Lemma search_taxid_frame W taxid σ :
  let σ' := (search_taxid W taxid σ).2 in
  heap σ' = heap σ ∧ stdin σ' = stdin σ ∧
  ∃ evs, trace σ' = trace σ ++ evs ∧ Forall quiet evs.
Proof.
  cbv zeta. search_cases.
  all: split; [done|]; split; [done|].
  all: rewrite <- ?(assoc_L (++)); eexists; split; [reflexivity|].
  all: simpl; quiet_events.
Qed.

(** No call of [search_taxid] removes an attribute. *)
Lemma search_taxid_session W taxid σ :
  has_session σ → has_session (search_taxid W taxid σ).2.
Proof.
  unfold has_session. intros [Hw Hq]. search_cases; split; by eauto.
Qed.

(** A search that returns [None] leaves the attributes alone, unless the
    reply carries a [WebEnv] without a [QueryKey]. *)
Lemma search_taxid_None_attributes W taxid σ :
  whole_handle W taxid →
  (search_taxid W taxid σ).1 = Returned None →
  same_attributes σ (search_taxid W taxid σ).2.
Proof.
  unfold whole_handle, search_term, same_attributes. intros Hwhole.
  search_cases.
  intros _. exfalso.
  match goal with
  | Hw : ?r !! "WebEnv" = Some _, Hq : ?r !! "QueryKey" = None |- _ =>
      destruct (Hwhole r eq_refl) as [? Hq']; [by eauto | congruence]
  end.
Qed.

(** The other methods never assign an attribute. *)
Lemma fetch_records_attributes W start max_records σ :
  same_attributes σ (fetch_records W start max_records σ).2.
Proof.
  unfold same_attributes, fetch_records. unfold_M. simpl.
  repeat (case_inner; simpl); done.
Qed.

Lemma filter_by_length_attributes records min_len max_len σ :
  same_attributes σ (filter_by_length records min_len max_len σ).2.
Proof.
  unfold same_attributes, filter_by_length. unfold_M. simpl.
  repeat (case_inner; simpl); done.
Qed.

Lemma generate_csv_attributes records filename σ :
  same_attributes σ (generate_csv records filename σ).2.
Proof.
  unfold same_attributes, generate_csv. unfold_M. simpl.
  repeat (case_inner; simpl); done.
Qed.

Lemma generate_plot_attributes records filename σ :
  same_attributes σ (generate_plot records filename σ).2.
Proof.
  unfold same_attributes, generate_plot. unfold_M. simpl.
  repeat (case_inner; simpl); done.
Qed.

Lemma same_attributes_session σ σ' :
  same_attributes σ σ' → has_session σ → has_session σ'.
Proof. unfold same_attributes, has_session. by intros (-> & -> & _). Qed.

Lemma run_call_session c σ : has_session σ → has_session (run_call c σ).
Proof.
  destruct c; simpl.
  - apply search_taxid_session.
  - apply same_attributes_session, fetch_records_attributes.
  - apply same_attributes_session, filter_by_length_attributes.
  - apply same_attributes_session, generate_csv_attributes.
  - apply same_attributes_session, generate_plot_attributes.
Qed.

Lemma run_calls_session cs σ : has_session σ → has_session (run_calls cs σ).
Proof.
  revert σ. induction cs as [|c cs IH]; intros σ H; [done|].
  simpl. apply IH, run_call_session, H.
Qed.

Lemma fetch_records_requests W start max_records σ w q :
  webenv σ = Some w → query_key σ = Some q →
  fetch_requests (new_events σ (fetch_records W start max_records σ).2) =
    [page_request start max_records w q].
Proof.
  intros Hw Hq.
  rewrite (fetch_records_session W _ _ _ _ _ Hw Hq). cbv zeta.
  destruct (efetch W _) as [handle|e]; [destruct (SeqIO_parse W handle)|];
    simpl; unfold new_events; simpl;
    rewrite <- ?(assoc_L (++)), drop_app_length; reflexivity.
Qed.

(** Every run of [fetch_records] leaves a mark: one of its events in the
    trace and one more list object in the store. *)
Lemma fetch_records_leaves_mark W start max_records σ :
  let σ' := (fetch_records W start max_records σ).2 in
  (∃ ev, ev ∈ new_events σ σ' ∧ fetch_event ev = true) ∧
  length (heap σ') = S (length (heap σ)).
Proof.
  cbv zeta. destruct (webenv σ) as [w|] eqn:Hw; [destruct (query_key σ) as [q|] eqn:Hq|].
  - rewrite (fetch_records_session W _ _ _ _ _ Hw Hq). cbv zeta.
    split.
    + exists (FetchRequest (page_request start max_records w q)). split; [|done].
      destruct (efetch W _) as [handle|e]; [destruct (SeqIO_parse W handle)|];
        simpl; unfold new_events; simpl;
        rewrite <- ?(assoc_L (++)), drop_app_length; apply list_elem_of_here.
    + destruct (efetch W _) as [handle|e]; [destruct (SeqIO_parse W handle)|];
        simpl; rewrite length_app; simpl; lia.
  - rewrite fetch_records_no_session by by right. simpl. split.
    + exists (Print no_session_message). split; [|done].
      unfold new_events. simpl. rewrite drop_app_length. apply list_elem_of_here.
    + rewrite length_app. simpl. lia.
  - rewrite fetch_records_no_session by by left. simpl. split.
    + exists (Print no_session_message). split; [|done].
      unfold new_events. simpl. rewrite drop_app_length. apply list_elem_of_here.
    + rewrite length_app. simpl. lia.
Qed.

(** ** The claims about [fetch_records] *)

(** C1. A call of [fetch_records] in a state where [webenv] or
    [query_key] was never assigned does not raise: it returns a new empty
    list, and the only thing it does is print the diagnostic. *)
Theorem fetch_records_without_session W start max_records σ :
  webenv σ = None ∨ query_key σ = None →
  ∃ out σ',
    fetch_records W start max_records σ = (Returned out, σ') ∧
    heap σ' !! out = Some [] ∧
    new_events σ σ' = [Print no_session_message].
Proof.
  intros H. rewrite (fetch_records_no_session _ _ _ _ H).
  eexists _, _. split; [reflexivity|]. split.
  - simpl. apply lookup_new_object.
  - by apply new_events_app.
Qed.

Lemma fetch_records_without_session_witness :
  (webenv fresh_state = None ∨ query_key fresh_state = None) ∧
  ∃ out σ',
    fetch_records W_found 0 200 fresh_state = (Returned out, σ') ∧
    heap σ' !! out = Some [] ∧
    new_events fresh_state σ' = [Print no_session_message].
Proof.
  split; [left; reflexivity|].
  apply (fetch_records_without_session W_found 0 200 fresh_state).
  left; reflexivity.
Defined.

(** C2. With a handle [(w, q)] stored, [fetch_records] issues exactly one
    page request; its size is [min(max_records, 500)], hence at most 500,
    and it is 500 when [max_records] is 1000. *)
Theorem fetch_records_page_size W start max_records σ w q :
  webenv σ = Some w → query_key σ = Some q →
  ∃ request,
    fetch_requests (new_events σ (fetch_records W start max_records σ).2) = [request] ∧
    request = mkRequest "nucleotide" "gb" "text" start (Z.min max_records 500) w q ∧
    retmax request = Z.min max_records 500 ∧
    retmax request ≤ 500 ∧
    (max_records = 1000 → retmax request = 500).
Proof.
  intros Hw Hq. exists (page_request start max_records w q).
  split; [|unfold page_request; simpl; repeat split; lia].
  by apply fetch_records_requests.
Qed.

Lemma fetch_records_page_size_witness :
  webenv session_state = Some "WE1" ∧ query_key session_state = Some "7" ∧
  ∃ request,
    fetch_requests (new_events session_state
                      (fetch_records W_found 0 1000 session_state).2) = [request] ∧
    request = mkRequest "nucleotide" "gb" "text" 0 (Z.min 1000 500) "WE1" "7" ∧
    retmax request = Z.min 1000 500 ∧
    retmax request ≤ 500 ∧
    (1000 = 1000 → retmax request = 500).
Proof.
  split; [reflexivity|]. split; [reflexivity|].
  apply (fetch_records_page_size W_found 0 1000 session_state "WE1" "7");
    reflexivity.
Defined.

(** C3. With a handle stored, when the remote call raises, or the call
    answers and the parse of its payload raises, [fetch_records] does not
    raise: it prints the error and returns a new empty list. *)
Theorem fetch_records_failure W start max_records σ w q e :
  webenv σ = Some w → query_key σ = Some q →
  let request := mkRequest "nucleotide" "gb" "text" start (Z.min max_records 500) w q in
  (efetch W request = Raised e ∨
   ∃ handle, efetch W request = Returned handle ∧ SeqIO_parse W handle = Raised e) →
  ∃ out σ',
    fetch_records W start max_records σ = (Returned out, σ') ∧
    heap σ' !! out = Some [] ∧
    new_events σ σ' =
      [FetchRequest request; PrintExn "Error fetching records: " e].
Proof.
  intros Hw Hq request Hfail.
  rewrite (fetch_records_session W _ _ _ _ _ Hw Hq). cbv zeta.
  fold request. unfold page_request. fold request.
  assert (
    ∃ out σ',
      (Returned (length (heap σ)),
       set_heap (heap σ ++ [[]])
         (log (PrintExn "Error fetching records: " e) (log (FetchRequest request) σ)))
        = (Returned out, σ') ∧
      heap σ' !! out = Some [] ∧
      new_events σ σ' = [FetchRequest request; PrintExn "Error fetching records: " e])
    as Hdone.
  { eexists _, _. split; [reflexivity|]. split.
    - simpl. apply lookup_new_object.
    - apply new_events_app. simpl. by rewrite <- (assoc_L (++)). }
  destruct Hfail as [Hcall | (handle & Hcall & Hparse)].
  - rewrite Hcall. exact Hdone.
  - rewrite Hcall, Hparse. exact Hdone.
Qed.

Lemma fetch_records_failure_witness :
  webenv session_state = Some "WE1" ∧ query_key session_state = Some "7" ∧
  (∃ handle, efetch W_garbled (mkRequest "nucleotide" "gb" "text" 0 (Z.min 200 500) "WE1" "7")
               = Returned handle ∧
             SeqIO_parse W_garbled handle = Raised (LibraryError "Premature end of line")) ∧
  ∃ out σ',
    fetch_records W_garbled 0 200 session_state = (Returned out, σ') ∧
    heap σ' !! out = Some [] ∧
    new_events session_state σ' =
      [FetchRequest (mkRequest "nucleotide" "gb" "text" 0 (Z.min 200 500) "WE1" "7");
       PrintExn "Error fetching records: " (LibraryError "Premature end of line")].
Proof.
  split; [reflexivity|]. split; [reflexivity|].
  split; [by exists "<html>"|].
  apply (fetch_records_failure W_garbled 0 200 session_state "WE1" "7"
           (LibraryError "Premature end of line")); [reflexivity..|].
  right. by exists "<html>".
Defined.

(** A search that returns [None] never assigns [query_key]; so as long as
    no search of a history has returned a count, no handle is stored and
    [fetch_records] takes its first branch. *)
Lemma search_taxid_None_query_key W taxid σ :
  (search_taxid W taxid σ).1 = Returned None →
  query_key (search_taxid W taxid σ).2 = query_key σ.
Proof. search_cases. Qed.

Lemma run_calls_no_handle cs σ :
  query_key σ = None →
  (∀ W taxid, Search W taxid ∈ cs → (search_taxid W taxid σ).1 = Returned None) →
  query_key (run_calls cs σ) = None.
Proof.
  revert σ. induction cs as [|c cs IH]; intros σ Hq Hnone; [done|].
  simpl. apply IH.
  - destruct c as [W taxid| | | |]; simpl.
    + rewrite search_taxid_None_query_key; [done|].
      apply Hnone. apply list_elem_of_here.
    + by destruct (fetch_records_attributes W start max_records σ) as (_ & -> & _).
    + by destruct (filter_by_length_attributes records min_len max_len σ) as (_ & -> & _).
    + by destruct (generate_csv_attributes records filename σ) as (_ & -> & _).
    + by destruct (generate_plot_attributes records filename σ) as (_ & -> & _).
  - intros W taxid Hin.
    rewrite (search_taxid_result_state_independent W taxid _ σ).
    apply Hnone. by apply list_elem_of_further.
Qed.


(** ** The claims about [search_taxid] *)

Lemma last_snoc_event (evs : list event) (ev : event) : last (evs ++ [ev]) = Some ev.
Proof. apply last_snoc. Qed.

(** C4, as the script has it.  A search whose two lookups answer with a
    count of 0 returns [None], and so does a search in which a lookup
    raises: the returned values are equal.  The runs are told apart by
    what they print.  The run with a count of 0 prints the announcement,
    the organism and, last, the count found; the run with an error prints
    the announcement, the organism if the first lookup answered, and,
    last, the error.  Neither assigns an attribute. *)
Theorem search_taxid_not_found_and_error W W' taxid name reply e σ σ' :
  search_answers W taxid name reply 0 →
  remote_error W' taxid e →
  (search_taxid W taxid σ).1 = Returned None ∧
  (search_taxid W' taxid σ').1 = Returned None ∧
  (search_taxid W taxid σ).1 = (search_taxid W' taxid σ').1 ∧
  last (trace (search_taxid W taxid σ).2) = Some (Print (found_message 0 name taxid)) ∧
  last (trace (search_taxid W' taxid σ').2) = Some (PrintExn (search_error_prefix taxid) e) ∧
  same_attributes σ (search_taxid W taxid σ).2 ∧
  same_attributes σ' (search_taxid W' taxid σ').2 ∧
  new_events σ (search_taxid W taxid σ).2 =
    [Print ("Searching for records with taxID: " +:+ taxid);
     TaxonomyRequest taxid;
     Print ("Organism: " +:+ name +:+ " (TaxID: " +:+ taxid +:+ ")");
     SearchRequest (search_term taxid);
     Print (found_message 0 name taxid)] ∧
  (new_events σ' (search_taxid W' taxid σ').2 =
     [Print ("Searching for records with taxID: " +:+ taxid);
      TaxonomyRequest taxid;
      PrintExn (search_error_prefix taxid) e] ∨
   ∃ name',
     new_events σ' (search_taxid W' taxid σ').2 =
       [Print ("Searching for records with taxID: " +:+ taxid);
        TaxonomyRequest taxid;
        Print ("Organism: " +:+ name' +:+ " (TaxID: " +:+ taxid +:+ ")");
        SearchRequest (search_term taxid);
        PrintExn (search_error_prefix taxid) e]).
Proof.
  intros Hzero Herr.
  assert (new_events σ' (search_taxid W' taxid σ').2 =
            [Print ("Searching for records with taxID: " +:+ taxid);
             TaxonomyRequest taxid;
             PrintExn (search_error_prefix taxid) e] ∨
          ∃ name',
            new_events σ' (search_taxid W' taxid σ').2 =
              [Print ("Searching for records with taxID: " +:+ taxid);
               TaxonomyRequest taxid;
               Print ("Organism: " +:+ name' +:+ " (TaxID: " +:+ taxid +:+ ")");
               SearchRequest (search_term taxid);
               PrintExn (search_error_prefix taxid) e]) as Hevents.
  { destruct Herr as [Htax | (record & rest & name' & Htax & Hname & Hsearch)];
      [left|right; exists name']; unfold search_term in *;
      unfold search_taxid; unfold_M; simpl; rewrite Htax; simpl;
      rewrite ?Hname; simpl; rewrite ?Hsearch; simpl;
      apply new_events_app; simpl; by rewrite <- !(assoc_L (++)). }
  rewrite (search_taxid_count _ _ _ _ _ σ Hzero) in *. cbv zeta.
  destruct (search_taxid_remote_error _ _ _ σ' Herr) as (σ1 & Heq & Hw & Hq & Hc & _).
  rewrite Heq in *. simpl.
  repeat split; try done; try apply last_snoc_event.
  apply new_events_app. simpl. by rewrite <- !(assoc_L (++)).
Qed.

Lemma W_empty_answers :
  search_answers W_empty "9606" "Homo sapiens"
    (<["Count" := "0"]> (<["WebEnv" := "WE2"]> {[ "QueryKey" := "1" ]})) 0.
Proof. by exists {[ "ScientificName" := "Homo sapiens" ]}, [], "0". Defined.

Lemma W_down_error : remote_error W_down "9606" gateway_error.
Proof. by left. Defined.

Lemma search_taxid_not_found_and_error_witness :
  search_answers W_empty "9606" "Homo sapiens"
    (<["Count" := "0"]> (<["WebEnv" := "WE2"]> {[ "QueryKey" := "1" ]})) 0 ∧
  remote_error W_down "9606" gateway_error ∧
  (search_taxid W_empty "9606" fresh_state).1 = Returned None ∧
  (search_taxid W_down "9606" fresh_state).1 = Returned None ∧
  (search_taxid W_empty "9606" fresh_state).1 = (search_taxid W_down "9606" fresh_state).1 ∧
  last (trace (search_taxid W_empty "9606" fresh_state).2)
    = Some (Print (found_message 0 "Homo sapiens" "9606")) ∧
  last (trace (search_taxid W_down "9606" fresh_state).2)
    = Some (PrintExn (search_error_prefix "9606") gateway_error) ∧
  same_attributes fresh_state (search_taxid W_empty "9606" fresh_state).2 ∧
  same_attributes fresh_state (search_taxid W_down "9606" fresh_state).2 ∧
  new_events fresh_state (search_taxid W_empty "9606" fresh_state).2 =
    [Print ("Searching for records with taxID: " +:+ "9606");
     TaxonomyRequest "9606";
     Print ("Organism: " +:+ "Homo sapiens" +:+ " (TaxID: " +:+ "9606" +:+ ")");
     SearchRequest (search_term "9606");
     Print (found_message 0 "Homo sapiens" "9606")] ∧
  (new_events fresh_state (search_taxid W_down "9606" fresh_state).2 =
     [Print ("Searching for records with taxID: " +:+ "9606");
      TaxonomyRequest "9606";
      PrintExn (search_error_prefix "9606") gateway_error] ∨
   ∃ name',
     new_events fresh_state (search_taxid W_down "9606" fresh_state).2 =
       [Print ("Searching for records with taxID: " +:+ "9606");
        TaxonomyRequest "9606";
        Print ("Organism: " +:+ name' +:+ " (TaxID: " +:+ "9606" +:+ ")");
        SearchRequest (search_term "9606");
        PrintExn (search_error_prefix "9606") gateway_error]).
Proof.
  split; [exact W_empty_answers|]. split; [exact W_down_error|].
  exact (search_taxid_not_found_and_error W_empty W_down "9606" "Homo sapiens" _
           gateway_error fresh_state fresh_state W_empty_answers W_down_error).
Defined.

(** C4, as the claim has it, fails: for the taxon 9606 the service
    [W_empty] answers both lookups with a count of 0, the service [W_down]
    raises, and the two searches return the same value. *)
Lemma search_taxid_not_found_indistinguishable :
  search_answers W_empty "9606" "Homo sapiens"
    (<["Count" := "0"]> (<["WebEnv" := "WE2"]> {[ "QueryKey" := "1" ]})) 0 ∧
  remote_error W_down "9606" gateway_error ∧
  ¬ ((search_taxid W_empty "9606" fresh_state).1 ≠ (search_taxid W_down "9606" fresh_state).1).
Proof.
  split; [exact W_empty_answers|]. split; [exact W_down_error|].
  intros H. apply H. vm_compute. reflexivity.
Qed.

(** X20. In a state holding the handle [(w, q)]: no history of calls
    removes the handle's attributes; and with a service that sends its two
    tokens together (a reply never carries a [WebEnv] without a
    [QueryKey]), a search that returns [None] leaves [(w, q)] and the
    count as they were, and the next [fetch_records] asks for its page
    with [(w, q)]. *)
Theorem session_handle_persists σ w q :
  webenv σ = Some w → query_key σ = Some q →
  (∀ cs, has_session (run_calls cs σ)) ∧
  (∀ W W' taxid start max_records,
     whole_handle W taxid →
     (search_taxid W taxid σ).1 = Returned None →
     let σ1 := (search_taxid W taxid σ).2 in
     webenv σ1 = Some w ∧ query_key σ1 = Some q ∧ count σ1 = count σ ∧
     fetch_requests (new_events σ1 (fetch_records W' start max_records σ1).2) =
       [mkRequest "nucleotide" "gb" "text" start (Z.min max_records 500) w q]).
Proof.
  intros Hw Hq. split.
  - intros cs. apply run_calls_session. split; by eauto.
  - intros W W' taxid start max_records Hwhole Hnone σ1.
    destruct (search_taxid_None_attributes W taxid σ Hwhole Hnone) as (Hw1 & Hq1 & Hc1).
    fold σ1 in Hw1, Hq1, Hc1. rewrite Hw in Hw1. rewrite Hq in Hq1.
    repeat split; try done.
    apply (fetch_records_requests W' start max_records σ1 w q Hw1 Hq1).
Qed.

Lemma W_empty_whole_handle : whole_handle W_empty "9606".
Proof. intros reply [= <-] _. by exists "1". Defined.

Lemma session_handle_persists_witness :
  webenv session_state = Some "WE1" ∧ query_key session_state = Some "7" ∧
  has_session (run_calls [Search W_down "9606"; Fetch W_found 0 200; Plot 0%nat "p.png"]
                 session_state) ∧
  whole_handle W_empty "9606" ∧
  (search_taxid W_empty "9606" session_state).1 = Returned None ∧
  let σ1 := (search_taxid W_empty "9606" session_state).2 in
  webenv σ1 = Some "WE1" ∧ query_key σ1 = Some "7" ∧ count σ1 = count session_state ∧
  fetch_requests (new_events σ1 (fetch_records W_found 0 200 σ1).2) =
    [mkRequest "nucleotide" "gb" "text" 0 (Z.min 200 500) "WE1" "7"].
Proof.
  split; [reflexivity|]. split; [reflexivity|].
  destruct (session_handle_persists session_state "WE1" "7" eq_refl eq_refl)
    as [Hkeep Hstale].
  split; [apply Hkeep|]. split; [exact W_empty_whole_handle|].
  split; [reflexivity|].
  exact (Hstale W_empty W_found "9606" 0 200 W_empty_whole_handle eq_refl).
Defined.

(** C10 at the input on which the script departs from it.  A successful
    search has stored the handle [("WE1", "7")].  The next search gets a
    reply with a count of 5 and a [WebEnv] but no [QueryKey]: line 27 has
    assigned [self.webenv] when line 28 raises [KeyError], so the search
    returns [None] with [webenv] replaced, where every other failing path
    leaves the attributes alone.  The next [fetch_records] asks for its
    page with [("WE2", "7")], not with the earlier handle. *)
Lemma failed_search_replaces_webenv :
  let σ1 := (search_taxid W_partial "9606" session_state).2 in
  webenv session_state = Some "WE1" ∧ query_key session_state = Some "7" ∧
  (search_taxid W_partial "9606" session_state).1 = Returned None ∧
  webenv σ1 = Some "WE2" ∧ query_key σ1 = Some "7" ∧
  webenv σ1 ≠ webenv session_state ∧
  fetch_requests (new_events σ1 (fetch_records W_found 0 200 σ1).2) =
    [mkRequest "nucleotide" "gb" "text" 0 200 "WE2" "7"].
Proof. vm_compute. repeat split; congruence. Qed.

(** ** The claim about [main] *)

Lemma quiet_prompt s : quiet (Prompt s).
Proof. done. Qed.

Lemma quiet_no_records : quiet (Print "No records found. Exiting.").
Proof. done. Qed.

#[local] Hint Resolve quiet_prompt quiet_no_records : quiet.

Lemma fetch_requests_quiet evs : Forall quiet evs → fetch_requests evs = [].
Proof.
  induction 1 as [|ev evs [Hev _] _ IH]; [done|].
  unfold fetch_requests in *. destruct ev; simpl; done.
Qed.

(** C5. In a run of [main] that reads its five lines, parses both bounds
    and in which [search_taxid] returns [None] (no record, or a failure;
    what it returns does not depend on the state it runs in),
    [main] returns normally; its last message is the notice; nothing in
    the run comes from [fetch_records], no page is requested, no CSV and
    no plot is written, and no list object is created. *)
Theorem main_without_results W σ email api_key taxid min_text max_text rest
    min_len max_len :
  stdin σ = email :: api_key :: taxid :: min_text :: max_text :: rest →
  int min_text = Returned min_len →
  int max_text = Returned max_len →
  (search_taxid W taxid σ).1 = Returned None →
  ∃ σ',
    main W σ = (Returned (), σ') ∧
    last (trace σ') = Some (Print "No records found. Exiting.") ∧
    Forall (λ ev, fetch_event ev = false ∧ file_event ev = false) (new_events σ σ') ∧
    fetch_requests (new_events σ σ') = [] ∧
    heap σ' = heap σ.
Proof.
  intros Hin Hmin Hmax Hnone.
  unfold main, input, NCBIRetriever_init. unfold_M. simpl.
  rewrite Hin. simpl. rewrite Hmin. simpl. rewrite Hmax. simpl.
  match goal with |- context [search_taxid W taxid ?s] => set (σ0 := s) end.
  rewrite (search_taxid_result_state_independent W taxid σ σ0) in Hnone.
  destruct (search_taxid_frame W taxid σ0) as (Hheap & _ & evs & Htrace & Hquiet).
  destruct (search_taxid W taxid σ0) as [r σ1]. simpl in *. subst r. simpl.
  eexists. split; [reflexivity|]. simpl.
  assert (Forall quiet
            (new_events σ (log (Print "No records found. Exiting.") σ1))) as Hall.
  { erewrite new_events_app.
    2:{ simpl. rewrite Htrace. rewrite <- !(assoc_L (++)). reflexivity. }
    simpl. quiet_events. apply Forall_app. split; [done|]. quiet_events. }
  split; [apply last_snoc_event|]. split; [exact Hall|].
  split; [by apply fetch_requests_quiet|done].
Qed.

Lemma main_without_results_witness :
  let σ := set_stdin ["me@example.org"; "key"; "9606"; "10"; "20"] fresh_state in
  stdin σ = ["me@example.org"; "key"; "9606"; "10"; "20"] ∧
  int "10" = Returned 10 ∧ int "20" = Returned 20 ∧
  (search_taxid W_down "9606" σ).1 = Returned None ∧
  ∃ σ',
    main W_down σ = (Returned (), σ') ∧
    last (trace σ') = Some (Print "No records found. Exiting.") ∧
    Forall (λ ev, fetch_event ev = false ∧ file_event ev = false) (new_events σ σ') ∧
    fetch_requests (new_events σ σ') = [] ∧
    heap σ' = heap σ.
Proof.
  intros σ. repeat (split; [reflexivity|]).
  apply (main_without_results W_down σ "me@example.org" "key" "9606" "10" "20" [] 10 20);
    reflexivity.
Defined.

(** ** [filter_by_length] *)

Section filter.
Variables lo hi : Z.

Implicit Types R S : list SeqRecord.t.

#[local] Abbreviation kept R := (filter (λ rec, lo ≤ seq_len rec ≤ hi) R) (only parsing).

Lemma kept_in_range_subsequence R : in_range_subsequence lo hi R (kept R).
Proof.
  induction R as [|r R IH]; [constructor|].
  rewrite filter_cons. case_decide.
  - by apply subsequence_keep.
  - by apply subsequence_drop.
Qed.

Lemma in_range_subsequence_unique R S :
  in_range_subsequence lo hi R S → S = kept R.
Proof.
  induction 1 as [|r R S Hr _ IH|r R S Hr _ IH]; [done|..];
    rewrite filter_cons; case_decide; try done.
  by rewrite IH.
Qed.

Lemma kept_empty_range R : hi < lo → kept R = [].
Proof.
  intros Hlt. induction R as [|r R IH]; [done|].
  rewrite filter_cons. case_decide; [lia|done].
Qed.

Lemma kept_twice R : kept (kept R) = kept R.
Proof.
  rewrite list_filter_filter.
  apply list_filter_iff. tauto.
Qed.

Lemma filter_by_length_run records R σ :
  heap σ !! records = Some R →
  filter_by_length records lo hi σ =
    (Returned (length (heap σ)), set_heap (heap σ ++ [kept R]) σ).
Proof.
  intros H. unfold filter_by_length. unfold_M. by rewrite H.
Qed.
End filter.

(** C6. On a list object holding [R], [filter_by_length] returns a new
    list object holding exactly the subsequence of [R] of the records with
    [lo ≤ len(rec.seq) ≤ hi], in the order of [R]; an empty [R] and bounds
    with [hi < lo] give the empty list, without an exception. *)
Theorem filter_by_length_subsequence records R lo hi σ :
  heap σ !! records = Some R →
  ∃ out σ' K,
    filter_by_length records lo hi σ = (Returned out, σ') ∧
    heap σ' !! out = Some K ∧
    in_range_subsequence lo hi R K ∧
    (∀ K', in_range_subsequence lo hi R K' → K' = K) ∧
    K `sublist_of` R ∧
    (∀ r, r ∈ K ↔ r ∈ R ∧ lo ≤ seq_len r ≤ hi) ∧
    (R = [] → K = []) ∧
    (hi < lo → K = []).
Proof.
  intros H. rewrite (filter_by_length_run lo hi records R σ H).
  eexists _, _, _. split; [reflexivity|].
  split; [simpl; apply lookup_new_object|].
  split; [apply kept_in_range_subsequence|].
  split; [apply in_range_subsequence_unique|].
  split; [apply sublist_filter|].
  split; [intros r; rewrite list_elem_of_filter; tauto|].
  split; [by intros ->|apply kept_empty_range].
Qed.

Lemma filter_by_length_subsequence_witness :
  heap store_state !! 0%nat = Some four_records ∧
  ∃ out σ' K,
    filter_by_length 0%nat 10 20 store_state = (Returned out, σ') ∧
    heap σ' !! out = Some K ∧
    in_range_subsequence 10 20 four_records K ∧
    (∀ K', in_range_subsequence 10 20 four_records K' → K' = K) ∧
    K `sublist_of` four_records ∧
    (∀ r, r ∈ K ↔ r ∈ four_records ∧ 10 ≤ seq_len r ≤ 20) ∧
    (four_records = [] → K = []) ∧
    (20 < 10 → K = []).
Proof.
  split; [reflexivity|].
  apply (filter_by_length_subsequence 0%nat four_records 10 20 store_state).
  reflexivity.
Defined.

(** C7. Filtering the result of [filter_by_length] again with the same
    bounds gives a list with the same elements in the same order. *)
Theorem filter_by_length_idempotent records R lo hi σ :
  heap σ !! records = Some R →
  ∃ once twice σ1 σ2 K,
    filter_by_length records lo hi σ = (Returned once, σ1) ∧
    heap σ1 !! once = Some K ∧
    filter_by_length once lo hi σ1 = (Returned twice, σ2) ∧
    heap σ2 !! once = Some K ∧
    heap σ2 !! twice = Some K.
Proof.
  intros H. rewrite (filter_by_length_run lo hi records R σ H).
  eexists _, _, _, _, _. split; [reflexivity|].
  assert (heap (set_heap (heap σ ++ [filter (λ rec, lo ≤ seq_len rec ≤ hi) R]) σ)
            !! length (heap σ)
          = Some (filter (λ rec, lo ≤ seq_len rec ≤ hi) R)) as Honce
    by (simpl; apply lookup_new_object).
  split; [exact Honce|].
  rewrite (filter_by_length_run lo hi _ _ _ Honce).
  split; [reflexivity|]. simpl. split.
  - apply lookup_old_object, lookup_new_object.
  - rewrite kept_twice. apply lookup_new_object.
Qed.

Lemma filter_by_length_idempotent_witness :
  heap store_state !! 0%nat = Some four_records ∧
  ∃ once twice σ1 σ2 K,
    filter_by_length 0%nat 10 20 store_state = (Returned once, σ1) ∧
    heap σ1 !! once = Some K ∧
    filter_by_length once 10 20 σ1 = (Returned twice, σ2) ∧
    heap σ2 !! once = Some K ∧
    heap σ2 !! twice = Some K.
Proof.
  split; [reflexivity|].
  apply (filter_by_length_idempotent 0%nat four_records 10 20 store_state).
  reflexivity.
Defined.

(** ** [sorted] *)

Section sorted_facts.
Context {A : Type} (key : A → Z) (reverse : bool).

Lemma precedes_keys_differ y x : precedes key reverse y x = true → key y ≠ key x.
Proof. unfold precedes. destruct reverse; lia. Qed.

Lemma precedes_in_order y x : precedes key reverse y x = true → in_order key reverse y x.
Proof. unfold precedes, in_order. destruct reverse; lia. Qed.

Lemma not_precedes_in_order y x :
  precedes key reverse y x = false → in_order key reverse x y.
Proof. unfold precedes, in_order. destruct reverse; lia. Qed.

Lemma in_order_trans a b c :
  in_order key reverse a b → in_order key reverse b c → in_order key reverse a c.
Proof. unfold in_order. destruct reverse; lia. Qed.

Lemma insert_sorted_Permutation x l : insert_sorted key reverse x l ≡ₚ x :: l.
Proof.
  induction l as [|y l IH]; simpl; [done|].
  destruct (precedes key reverse y x); [|done].
  rewrite IH. apply Permutation_swap.
Qed.

Lemma sorted_Permutation l : sorted key reverse l ≡ₚ l.
Proof.
  induction l as [|x l IH]; simpl; [done|].
  by rewrite insert_sorted_Permutation, IH.
Qed.

Lemma insert_sorted_StronglySorted x l :
  StronglySorted (in_order key reverse) l →
  StronglySorted (in_order key reverse) (insert_sorted key reverse x l).
Proof.
  induction 1 as [|y l Hl IH Hy]; simpl; [by repeat constructor|].
  destruct (precedes key reverse y x) eqn:Hp.
  - constructor; [done|].
    rewrite insert_sorted_Permutation. constructor; [|done].
    by apply precedes_in_order.
  - apply not_precedes_in_order in Hp.
    constructor; [by constructor|]. constructor; [done|].
    eapply Forall_impl; [exact Hy|]. intros z Hz. by eapply in_order_trans.
Qed.

Lemma sorted_StronglySorted l :
  StronglySorted (in_order key reverse) (sorted key reverse l).
Proof.
  induction l as [|x l IH]; simpl; [constructor|].
  by apply insert_sorted_StronglySorted.
Qed.

(** Stability: the elements with a given key come in the order of the
    input. *)
Lemma insert_sorted_stable k x l :
  filter (λ a, key a = k) (insert_sorted key reverse x l)
  = filter (λ a, key a = k) (x :: l).
Proof.
  induction l as [|y l IH]; simpl; [done|].
  destruct (precedes key reverse y x) eqn:Hp; [|done].
  apply precedes_keys_differ in Hp.
  rewrite (filter_cons _ y), IH, !filter_cons.
  repeat case_decide; congruence.
Qed.

Lemma sorted_stable k l :
  filter (λ a, key a = k) (sorted key reverse l) = filter (λ a, key a = k) l.
Proof.
  induction l as [|x l IH]; simpl; [done|].
  by rewrite insert_sorted_stable, !filter_cons, IH.
Qed.
End sorted_facts.

(** ** The claims about the report *)

Lemma generate_plot_run records R filename σ :
  heap σ !! records = Some R →
  let S := sorted seq_len true R in
  generate_plot records filename σ =
    (Returned (),
     log (Print ("Saved plot to " +:+ filename))
       (log (Savefig filename
               (mkFigure (20, 5) (SeqRecord.id <$> S) (seq_len <$> S) "o" 90
                  "GenBank Record Lengths" "Accession number" "Sequence length"))
          (set_heap (heap σ ++ [S]) σ))).
Proof.
  intros H. unfold generate_plot. unfold_M. rewrite H. simpl.
  by rewrite lookup_new_object.
Qed.

(** C8. On a list object holding [R], [generate_plot] plots the ids and
    lengths of a new list [P]: a permutation of [R], in descending order of
    length, in which records of equal length keep the order they have in
    [R].  The object passed in still holds [R] afterwards, as does every
    other list object. *)
Theorem generate_plot_sorted_copy records R filename σ :
  heap σ !! records = Some R →
  ∃ σ' fig P copy,
    generate_plot records filename σ = (Returned (), σ') ∧
    new_events σ σ' = [Savefig filename fig; Print ("Saved plot to " +:+ filename)] ∧
    plot_x fig = SeqRecord.id <$> P ∧
    plot_y fig = seq_len <$> P ∧
    P ≡ₚ R ∧
    StronglySorted (λ a b, seq_len b ≤ seq_len a) P ∧
    (∀ k, filter (λ r, seq_len r = k) P = filter (λ r, seq_len r = k) R) ∧
    copy ≠ records ∧
    heap σ' !! copy = Some P ∧
    heap σ' !! records = Some R ∧
    (∀ l v, heap σ !! l = Some v → heap σ' !! l = Some v).
Proof.
  intros H. rewrite (generate_plot_run records R filename σ H). cbv zeta.
  eexists _, _, (sorted seq_len true R), (length (heap σ)).
  split; [reflexivity|].
  split; [apply new_events_app; simpl; by rewrite <- (assoc_L (++))|].
  split; [reflexivity|]. split; [reflexivity|].
  split; [apply sorted_Permutation|].
  split; [apply (sorted_StronglySorted seq_len true)|].
  split; [intros k; apply sorted_stable|].
  split; [apply lookup_lt_Some in H; lia|].
  simpl. split; [apply lookup_new_object|].
  split; [by apply lookup_old_object|].
  intros l v. apply lookup_old_object.
Qed.

Lemma generate_plot_sorted_copy_witness :
  heap store_state !! 0%nat = Some four_records ∧
  ∃ σ' fig P copy,
    generate_plot 0%nat "taxid_9606_plot.png" store_state = (Returned (), σ') ∧
    new_events store_state σ' =
      [Savefig "taxid_9606_plot.png" fig;
       Print ("Saved plot to " +:+ "taxid_9606_plot.png")] ∧
    plot_x fig = SeqRecord.id <$> P ∧
    plot_y fig = seq_len <$> P ∧
    P ≡ₚ four_records ∧
    StronglySorted (λ a b, seq_len b ≤ seq_len a) P ∧
    (∀ k, filter (λ r, seq_len r = k) P = filter (λ r, seq_len r = k) four_records) ∧
    copy ≠ 0%nat ∧
    heap σ' !! copy = Some P ∧
    heap σ' !! 0%nat = Some four_records ∧
    (∀ l v, heap store_state !! l = Some v → heap σ' !! l = Some v).
Proof.
  split; [reflexivity|].
  apply (generate_plot_sorted_copy 0%nat four_records "taxid_9606_plot.png" store_state).
  reflexivity.
Defined.

(** The plot of the four sample records: the two records of length 15
    come in the order of the input, A2 before A4. *)
Example generate_plot_four_records :
  ∃ fig, new_events store_state (generate_plot 0%nat "p.png" store_state).2
           = [Savefig "p.png" fig; Print "Saved plot to p.png"] ∧
         plot_x fig = ["A3"; "A2"; "A4"; "A1"] ∧
         plot_y fig = [30; 15; 15; 5].
Proof. eexists. vm_compute. repeat split. Qed.

Lemma generate_csv_run records R filename σ :
  heap σ !! records = Some R →
  generate_csv records filename σ =
    (Returned (),
     log (Print ("Saved CSV report to " +:+ filename))
       (log (WriteCsv filename (report_header :: (report_row <$> R))) σ)).
Proof.
  intros H. unfold generate_csv. unfold_M. by rewrite H.
Qed.

(** C9. On a list object holding [R], [generate_csv] writes one file:
    the header row [Accession number], [Length], [Description], then for
    each record of [R], in order, the row of its id, length and
    description.  Every row has three cells: there is no index column. *)
Theorem generate_csv_table records R filename σ :
  heap σ !! records = Some R →
  ∃ σ' rows,
    generate_csv records filename σ = (Returned (), σ') ∧
    new_events σ σ' = [WriteCsv filename rows;
                       Print ("Saved CSV report to " +:+ filename)] ∧
    rows !! 0%nat = Some [CStr "Accession number"; CStr "Length"; CStr "Description"] ∧
    length rows = S (length R) ∧
    (∀ i record, R !! i = Some record →
       rows !! S i = Some [CStr (SeqRecord.id record); CInt (seq_len record);
                           CStr (SeqRecord.description record)]) ∧
    Forall (λ row, length row = 3%nat) rows.
Proof.
  intros H. rewrite (generate_csv_run records R filename σ H).
  eexists _, (report_header :: (report_row <$> R)).
  split; [reflexivity|].
  split; [apply new_events_app; simpl; by rewrite <- (assoc_L (++))|].
  split; [reflexivity|].
  split; [simpl; by rewrite length_fmap|].
  split.
  - intros i record Hi. simpl. by rewrite list_lookup_fmap, Hi.
  - constructor; [done|]. apply Forall_fmap. by apply Forall_true.
Qed.

Lemma generate_csv_table_witness :
  heap store_state !! 0%nat = Some four_records ∧
  ∃ σ' rows,
    generate_csv 0%nat "taxid_9606_report.csv" store_state = (Returned (), σ') ∧
    new_events store_state σ' =
      [WriteCsv "taxid_9606_report.csv" rows;
       Print ("Saved CSV report to " +:+ "taxid_9606_report.csv")] ∧
    rows !! 0%nat = Some [CStr "Accession number"; CStr "Length"; CStr "Description"] ∧
    length rows = S (length four_records) ∧
    (∀ i record, four_records !! i = Some record →
       rows !! S i = Some [CStr (SeqRecord.id record); CInt (seq_len record);
                           CStr (SeqRecord.description record)]) ∧
    Forall (λ row, length row = 3%nat) rows.
Proof.
  split; [reflexivity|].
  apply (generate_csv_table 0%nat four_records "taxid_9606_report.csv" store_state).
  reflexivity.
Defined.

(** The same with a service that knows the taxon and finds nothing. *)
Example main_zero_count :
  let σ := set_stdin ["me@example.org"; "key"; "9606"; "10"; "20"] fresh_state in
  (main W_empty σ).1 = Returned () ∧
  trace (main W_empty σ).2 =
    [ Prompt "Enter your email address for NCBI: ";
      Prompt "Enter your NCBI API key: ";
      Prompt "Enter taxonomic ID (taxid) of the organism: ";
      Prompt "Enter minimum sequence length: ";
      Prompt "Enter maximum sequence length: ";
      Print "Searching for records with taxID: 9606";
      TaxonomyRequest "9606";
      Print "Organism: Homo sapiens (TaxID: 9606)";
      SearchRequest "txid9606[Organism]";
      Print "Found 0 records for Homo sapiens (TaxID: 9606)";
      Print "No records found. Exiting." ] ∧
  heap (main W_empty σ).2 = [].
Proof. vm_compute. done. Qed.

(** ** A whole run

    The service finds three records of lengths 5, 15 and 30; with the
    bounds 10 and 20 the report has the one row of A2 and the plot the one
    point of A2. *)
Example main_end_to_end :
  let σ := set_stdin ["me@example.org"; "key"; "9606"; "10"; "20"] fresh_state in
  (main W_found σ).1 = Returned () ∧
  filter (λ ev, file_event ev = true) (trace (main W_found σ).2) =
    [ WriteCsv "taxid_9606_report.csv"
        [ [CStr "Accession number"; CStr "Length"; CStr "Description"];
          [CStr "A2"; CInt 15; CStr "Homo sapiens clone 2"] ];
      Savefig "taxid_9606_plot.png"
        (mkFigure (20, 5) ["A2"] [15] "o" 90
           "GenBank Record Lengths" "Accession number" "Sequence length") ] ∧
  fetch_requests (trace (main W_found σ).2) =
    [ mkRequest "nucleotide" "gb" "text" 0 200 "WE2" "1" ].
Proof. vm_compute. done. Qed.

(** * Further properties *)

(** ** [search_taxid], case by case *)

(** X1. When both lookups answer, the count [n] is not 0 and the reply
    carries both tokens, [search_taxid] returns [n] and stores the reply's
    tokens and [n], whatever was stored before. *)
Theorem search_taxid_stores_handle W taxid name reply n w q σ :
  search_answers W taxid name reply n →
  n ≠ 0 →
  reply !! "WebEnv" = Some w →
  reply !! "QueryKey" = Some q →
  let σ' := (search_taxid W taxid σ).2 in
  (search_taxid W taxid σ).1 = Returned (Some n) ∧
  webenv σ' = Some w ∧ query_key σ' = Some q ∧ count σ' = Some n ∧
  heap σ' = heap σ ∧
  last (trace σ') = Some (Print (found_message n name taxid)).
Proof.
  intros Hans Hn Hw Hq.
  rewrite (search_taxid_count _ _ _ _ _ σ Hans). cbv zeta.
  rewrite Hw, Hq. destruct (decide (n = 0)); [done|].
  simpl. repeat split; try done. apply last_snoc_event.
Qed.

Lemma W_found_answers :
  search_answers W_found "9606" "Homo sapiens"
    (<["Count" := "3"]> (<["WebEnv" := "WE2"]> {[ "QueryKey" := "1" ]})) 3.
Proof. by exists {[ "ScientificName" := "Homo sapiens" ]}, [], "3". Defined.

Lemma search_taxid_stores_handle_witness :
  let σ' := (search_taxid W_found "9606" session_state).2 in
  (search_taxid W_found "9606" session_state).1 = Returned (Some 3) ∧
  webenv σ' = Some "WE2" ∧ query_key σ' = Some "1" ∧ count σ' = Some 3 ∧
  heap σ' = heap session_state ∧
  last (trace σ') = Some (Print (found_message 3 "Homo sapiens" "9606")).
Proof.
  apply (search_taxid_stores_handle W_found "9606" "Homo sapiens" _ 3 "WE2" "1"
           session_state W_found_answers); [lia|reflexivity..].
Defined.

(** X2. [search_taxid] never raises, whatever the service and the parser
    do, and the value it returns is never the count 0. *)
Theorem search_taxid_never_raises W taxid σ :
  ∃ r, (search_taxid W taxid σ).1 = Returned r ∧ r ≠ Some 0.
Proof. search_cases; eexists; split; try done; congruence. Qed.

(** X3. When a subscript or the conversion of the count fails (unknown
    taxon, missing name, missing or malformed count, missing [WebEnv]),
    [search_taxid] returns [None], its last message carries that
    exception, and no attribute and no list object changes. *)
Theorem search_taxid_local_error W taxid e σ :
  local_error W taxid e →
  let σ' := (search_taxid W taxid σ).2 in
  (search_taxid W taxid σ).1 = Returned None ∧
  last (trace σ') = Some (PrintExn (search_error_prefix taxid) e) ∧
  same_attributes σ σ' ∧
  heap σ' = heap σ.
Proof.
  unfold organism, search_term, same_attributes.
  intros [Hempty | (record & rest & Htax & Hname) | name reply Horg Hsearch Hcount
         | name reply text Horg Hsearch Hcount Hint | name reply n Hans Hn Hw]; cbv zeta.
  - unfold search_taxid. unfold_M. simpl. rewrite Hempty. simpl.
    repeat split; try done. apply last_snoc_event.
  - unfold search_taxid. unfold_M. simpl. rewrite Htax. simpl. rewrite Hname. simpl.
    repeat split; try done. apply last_snoc_event.
  - unfold organism in Horg. unfold search_term in Hsearch.
    destruct (taxonomy_lookup W taxid) as [[|record rest]|] eqn:Htax; try done.
    unfold search_taxid. unfold_M. simpl. rewrite Htax. simpl. rewrite Horg. simpl.
    rewrite Hsearch. simpl. rewrite Hcount. simpl.
    repeat split; try done. apply last_snoc_event.
  - unfold organism in Horg. unfold search_term in Hsearch.
    destruct (taxonomy_lookup W taxid) as [[|record rest]|] eqn:Htax; try done.
    unfold search_taxid. unfold_M. simpl. rewrite Htax. simpl. rewrite Horg. simpl.
    rewrite Hsearch. simpl. rewrite Hcount. simpl. rewrite Hint. simpl.
    repeat split; try done. apply last_snoc_event.
  - rewrite (search_taxid_count _ _ _ _ _ σ Hans). cbv zeta.
    rewrite Hw. destruct (decide (n = 0)); [done|].
    simpl. repeat split; try done. apply last_snoc_event.
Qed.

Lemma search_taxid_local_error_witness :
  local_error W_unknown "0" IndexError ∧
  let σ' := (search_taxid W_unknown "0" session_state).2 in
  (search_taxid W_unknown "0" session_state).1 = Returned None ∧
  last (trace σ') = Some (PrintExn (search_error_prefix "0") IndexError) ∧
  same_attributes session_state σ' ∧
  heap σ' = heap session_state.
Proof.
  split; [by constructor|].
  apply (search_taxid_local_error W_unknown "0" IndexError session_state).
  by constructor.
Defined.

(** X4. When both lookups answer with a count that is not 0 and the reply
    carries a [WebEnv] but no [QueryKey], [search_taxid] returns [None]
    after it has stored the new [WebEnv]; [query_key] and [count] keep
    their earlier values. *)
Theorem search_taxid_half_handle W taxid name reply n w σ :
  search_answers W taxid name reply n →
  n ≠ 0 →
  reply !! "WebEnv" = Some w →
  reply !! "QueryKey" = None →
  let σ' := (search_taxid W taxid σ).2 in
  (search_taxid W taxid σ).1 = Returned None ∧
  webenv σ' = Some w ∧ query_key σ' = query_key σ ∧ count σ' = count σ ∧
  last (trace σ') = Some (PrintExn (search_error_prefix taxid) (KeyError "QueryKey")).
Proof.
  intros Hans Hn Hw Hq.
  rewrite (search_taxid_count _ _ _ _ _ σ Hans). cbv zeta.
  rewrite Hw, Hq. destruct (decide (n = 0)); [done|].
  simpl. repeat split; try done. apply last_snoc_event.
Qed.

Lemma W_partial_answers :
  search_answers W_partial "9606" "Homo sapiens"
    (<["Count" := "5"]> {[ "WebEnv" := "WE2" ]}) 5.
Proof. by exists {[ "ScientificName" := "Homo sapiens" ]}, [], "5". Defined.

Lemma search_taxid_half_handle_witness :
  let σ' := (search_taxid W_partial "9606" fresh_state).2 in
  (search_taxid W_partial "9606" fresh_state).1 = Returned None ∧
  webenv σ' = Some "WE2" ∧ query_key σ' = query_key fresh_state ∧
  count σ' = count fresh_state ∧
  last (trace σ') = Some (PrintExn (search_error_prefix "9606") (KeyError "QueryKey")).
Proof.
  apply (search_taxid_half_handle W_partial "9606" "Homo sapiens" _ 5 "WE2"
           fresh_state W_partial_answers); [lia|reflexivity..].
Defined.

(** X5. A search starts with its announcement, then asks for the taxon;
    it goes on to the nucleotide search only when the taxonomy reply has a
    first record with a [ScientificName].  It asks for no page and writes
    no file. *)
Theorem search_taxid_requests W taxid σ :
  let evs := new_events σ (search_taxid W taxid σ).2 in
  head evs = Some (Print ("Searching for records with taxID: " +:+ taxid)) ∧
  remote_requests evs =
    TaxonomyRequest taxid ::
      match organism W taxid with
      | Some _ => [SearchRequest (search_term taxid)]
      | None => []
      end ∧
  file_events evs = [].
Proof.
  cbv zeta. unfold organism, search_term, new_events.
  search_cases; rewrite <- ?(assoc_L (++)), drop_app_length; done.
Qed.

(** ** [fetch_records] and the store *)

(** X6. With a handle stored, when the remote call answers and its
    payload parses, [fetch_records] returns a new list holding the parsed
    records as they are, after its one request; it prints nothing and
    assigns no attribute. *)
Theorem fetch_records_returns_page W start max_records σ w q handle parsed :
  webenv σ = Some w → query_key σ = Some q →
  efetch W (mkRequest "nucleotide" "gb" "text" start (Z.min max_records 500) w q)
    = Returned handle →
  SeqIO_parse W handle = Returned parsed →
  ∃ out σ',
    fetch_records W start max_records σ = (Returned out, σ') ∧
    heap σ' !! out = Some parsed ∧
    new_events σ σ' =
      [FetchRequest (mkRequest "nucleotide" "gb" "text" start (Z.min max_records 500) w q)] ∧
    same_attributes σ σ'.
Proof.
  intros Hw Hq Hcall Hparse.
  rewrite (fetch_records_session W _ _ _ _ _ Hw Hq). cbv zeta.
  unfold page_request. rewrite Hcall, Hparse.
  eexists _, _. split; [reflexivity|]. simpl.
  split; [apply lookup_new_object|].
  split; [by apply new_events_app|done].
Qed.

Lemma fetch_records_returns_page_witness :
  ∃ out σ',
    fetch_records W_found 0 200 session_state = (Returned out, σ') ∧
    heap σ' !! out = Some [record_A1; record_A2; record_A3] ∧
    new_events session_state σ' =
      [FetchRequest (mkRequest "nucleotide" "gb" "text" 0 (Z.min 200 500) "WE1" "7")] ∧
    same_attributes session_state σ'.
Proof.
  apply (fetch_records_returns_page W_found 0 200 session_state "WE1" "7" "LOCUS ...");
    reflexivity.
Defined.

Lemma fetch_records_heap W start max_records σ :
  ∃ v, heap (fetch_records W start max_records σ).2 = heap σ ++ [v].
Proof.
  unfold fetch_records. unfold_M. simpl.
  repeat (case_inner; simpl); by eexists.
Qed.

Lemma filter_by_length_heap records min_len max_len σ :
  heap σ `prefix_of` heap (filter_by_length records min_len max_len σ).2.
Proof.
  unfold filter_by_length. unfold_M. simpl.
  repeat (case_inner; simpl); [by apply prefix_app_r|done].
Qed.

Lemma generate_csv_heap records filename σ :
  heap (generate_csv records filename σ).2 = heap σ.
Proof.
  unfold generate_csv. unfold_M. simpl. repeat (case_inner; simpl); done.
Qed.

Lemma generate_plot_heap records filename σ :
  heap σ `prefix_of` heap (generate_plot records filename σ).2.
Proof.
  unfold generate_plot. unfold_M. simpl.
  destruct (heap σ !! records) as [R|]; simpl; [|done].
  rewrite lookup_new_object. simpl. by apply prefix_app_r.
Qed.

Lemma run_call_heap c σ : heap σ `prefix_of` heap (run_call c σ).
Proof.
  destruct c; simpl.
  - by destruct (search_taxid_frame W taxid σ) as (-> & _).
  - destruct (fetch_records_heap W start max_records σ) as [v ->].
    by apply prefix_app_r.
  - apply filter_by_length_heap.
  - by rewrite generate_csv_heap.
  - apply generate_plot_heap.
Qed.

(** X7. Along any history of calls the store only grows: a list object
    that exists keeps its contents for ever, whichever methods run and
    whatever the service answers. *)
Theorem list_objects_never_change cs σ l v :
  heap σ !! l = Some v →
  heap (run_calls cs σ) !! l = Some v.
Proof.
  revert σ. induction cs as [|c cs IH]; intros σ H; [done|].
  simpl. apply IH. by eapply prefix_lookup_Some, run_call_heap.
Qed.

Lemma list_objects_never_change_witness :
  heap store_state !! 0%nat = Some four_records ∧
  heap (run_calls [Plot 0%nat "p.png"; Filter 0%nat 10 20; Fetch W_garbled 0 200;
                   Search W_found "9606"; Csv 1%nat "r.csv"] store_state) !! 0%nat
    = Some four_records.
Proof.
  split; [reflexivity|].
  apply (list_objects_never_change _ store_state 0%nat four_records).
  reflexivity.
Defined.

(** ** The attributes along a history *)

Lemma search_taxid_consistent W taxid σ :
  consistent σ → consistent (search_taxid W taxid σ).2.
Proof.
  unfold consistent. intros (Hqc & Hqw & Hc).
  search_cases; (split; [|split]); simpl;
    first [ done | by eauto | congruence
          | split; intros _; by eauto ].
Qed.

Lemma same_attributes_consistent σ σ' :
  same_attributes σ σ' → consistent σ → consistent σ'.
Proof. unfold same_attributes, consistent. by intros (-> & -> & ->). Qed.

Lemma run_call_consistent c σ : consistent σ → consistent (run_call c σ).
Proof.
  destruct c; simpl.
  - apply search_taxid_consistent.
  - apply same_attributes_consistent, fetch_records_attributes.
  - apply same_attributes_consistent, filter_by_length_attributes.
  - apply same_attributes_consistent, generate_csv_attributes.
  - apply same_attributes_consistent, generate_plot_attributes.
Qed.

(** X8. Along any history of calls on a retriever, [query_key] is set
    exactly when [count] is, a set [query_key] comes with a set [webenv],
    and the stored count is never 0. *)
Theorem attributes_stay_consistent cs σ :
  consistent σ → consistent (run_calls cs σ).
Proof.
  revert σ. induction cs as [|c cs IH]; intros σ H; [done|].
  simpl. by apply IH, run_call_consistent.
Qed.

Lemma fresh_state_consistent : consistent fresh_state.
Proof.
  unfold consistent. simpl. repeat split; try done; by intros [? [=]].
Defined.

Lemma attributes_stay_consistent_witness :
  consistent fresh_state ∧
  consistent (run_calls [Search W_partial "9606"; Fetch W_found 0 200;
                         Search W_found "9606"; Search W_empty "1"] fresh_state).
Proof.
  split; [exact fresh_state_consistent|].
  apply (attributes_stay_consistent _ fresh_state fresh_state_consistent).
Defined.

(** X9. As long as no search of the history has returned a count, no
    [query_key] is stored, and [fetch_records] asks for no page: it prints
    the diagnostic and returns a new empty list. *)
Theorem fetch_records_before_any_count W start max_records cs σ :
  query_key σ = None →
  (∀ W' taxid, Search W' taxid ∈ cs → (search_taxid W' taxid σ).1 = Returned None) →
  ∃ out σ',
    fetch_records W start max_records (run_calls cs σ) = (Returned out, σ') ∧
    heap σ' !! out = Some [] ∧
    new_events (run_calls cs σ) σ' = [Print no_session_message].
Proof.
  intros Hq Hnone.
  rewrite fetch_records_no_session by (right; by apply run_calls_no_handle).
  eexists _, _. split; [reflexivity|]. split.
  - simpl. apply lookup_new_object.
  - by apply new_events_app.
Qed.

Lemma no_count_history W taxid :
  Search W taxid ∈ [Search W_down "9606"; Fetch W_found 0 10; Search W_partial "9606"] →
  (search_taxid W taxid fresh_state).1 = Returned None.
Proof.
  rewrite !elem_of_cons, elem_of_nil.
  intros [[= -> ->] | [[=] | [[= -> ->] | []]]]; reflexivity.
Defined.

Lemma fetch_records_before_any_count_witness :
  query_key fresh_state = None ∧
  ∃ out σ',
    fetch_records W_found 0 200
      (run_calls [Search W_down "9606"; Fetch W_found 0 10; Search W_partial "9606"]
         fresh_state) = (Returned out, σ') ∧
    heap σ' !! out = Some [] ∧
    new_events
      (run_calls [Search W_down "9606"; Fetch W_found 0 10; Search W_partial "9606"]
         fresh_state) σ' = [Print no_session_message].
Proof.
  split; [reflexivity|].
  apply (fetch_records_before_any_count W_found 0 200 _ fresh_state eq_refl).
  exact no_count_history.
Defined.

(** ** [main], path by path *)

(** The run of [main] once the search has returned a count. *)
Lemma main_after_search W σ email api_key taxid min_text max_text rest
    min_len max_len name reply n w q :
  stdin σ = email :: api_key :: taxid :: min_text :: max_text :: rest →
  int min_text = Returned min_len →
  int max_text = Returned max_len →
  search_answers W taxid name reply n →
  n ≠ 0 →
  reply !! "WebEnv" = Some w →
  reply !! "QueryKey" = Some q →
  let kept := filter (λ rec, min_len ≤ seq_len rec ≤ max_len) (fetched_page W 0 200 w q) in
  let evs := new_events σ (main W σ).2 in
  (main W σ).1 = Returned () ∧
  fetch_requests evs = [mkRequest "nucleotide" "gb" "text" 0 200 w q] ∧
  file_events evs =
    match kept with
    | [] => []
    | _ :: _ =>
        [WriteCsv ("taxid_" +:+ taxid +:+ "_report.csv")
           (report_header :: (report_row <$> kept));
         Savefig ("taxid_" +:+ taxid +:+ "_plot.png")
           (mkFigure (20, 5) (SeqRecord.id <$> sorted seq_len true kept)
              (seq_len <$> sorted seq_len true kept) "o" 90
              "GenBank Record Lengths" "Accession number" "Sequence length")]
    end ∧
  last (trace (main W σ).2) =
    Some (Print match kept with
                | [] => "No records matched the length criteria."
                | _ :: _ => "Saved plot to " +:+ ("taxid_" +:+ taxid +:+ "_plot.png")
                end).
Proof.
  intros Hin Hmin Hmax Hans Hn Hw Hq kept evs. subst evs.
  destruct (main W σ) as [o σ'] eqn:X.
  unfold main, input, NCBIRetriever_init in X.
  unfold mbind, M_bind, mret, M_ret, modify in X. simpl in X.
  rewrite Hin in X. simpl in X. rewrite Hmin in X. simpl in X.
  rewrite Hmax in X. simpl in X.
  rewrite (search_taxid_count _ _ _ _ _ _ Hans) in X. cbv zeta in X.
  rewrite Hw, Hq in X. destruct (decide (n = 0)) as [|_]; [done|].
  simpl in X. rewrite bool_decide_eq_false_2 in X by done.
  erewrite fetch_records_session in X by reflexivity. cbv zeta in X.
  unfold fetched_page in kept. subst kept.
  unfold page_request in *. change (Z.min 200 500) with 200 in *.
  destruct (efetch W _) as [handle|e];
    [destruct (SeqIO_parse W handle) as [parsed|e]|].
  all: unfold read_list in X; simpl in X; rewrite lookup_new_object in X.
  all: erewrite filter_by_length_run in X by (simpl; apply lookup_new_object).
  all: simpl in X; rewrite lookup_new_object in X.
  all: try destruct (filter _ parsed) as [|r k] eqn:Hk.
  all: try (erewrite generate_csv_run in X by (simpl; apply lookup_new_object);
            erewrite generate_plot_run in X by (simpl; apply lookup_new_object)).
  all: unfold print, modify in X; cbv zeta in X; injection X as <- <-.
  all: split; [reflexivity|].
  all: unfold new_events; simpl; rewrite <- !(assoc_L (++)), drop_app_length.
  all: split; [reflexivity|]; split; [reflexivity|].
  all: rewrite !(assoc_L (++)); apply last_snoc_event.
Qed.

(** The run of [main] when the search returns [None]. *)
Lemma main_after_empty_search W σ email api_key taxid min_text max_text rest
    min_len max_len :
  stdin σ = email :: api_key :: taxid :: min_text :: max_text :: rest →
  int min_text = Returned min_len →
  int max_text = Returned max_len →
  (search_taxid W taxid σ).1 = Returned None →
  (main W σ).1 = Returned () ∧
  file_events (new_events σ (main W σ).2) = [].
Proof.
  intros Hin Hmin Hmax Hnone.
  unfold main, input, NCBIRetriever_init. unfold_M. simpl.
  rewrite Hin. simpl. rewrite Hmin. simpl. rewrite Hmax. simpl.
  match goal with |- context [search_taxid W taxid ?s] => set (σ0 := s) end.
  rewrite (search_taxid_result_state_independent W taxid σ σ0) in Hnone.
  destruct (search_taxid_frame W taxid σ0) as (_ & _ & evs & Htrace & Hquiet).
  destruct (search_taxid W taxid σ0) as [r σ1]. simpl in *. subst r. simpl.
  split; [done|].
  erewrite new_events_app.
  2:{ simpl. rewrite Htrace. rewrite <- !(assoc_L (++)). reflexivity. }
  simpl. unfold file_events. rewrite !filter_cons. simpl.
  rewrite filter_app. simpl.
  assert (filter (λ ev, file_event ev = true) evs = []) as ->; [|done].
  clear Htrace. induction Hquiet as [|ev evs [_ Hev] _ IH]; [done|].
  rewrite filter_cons, IH. by rewrite decide_False by congruence.
Qed.

Lemma generate_csv_on_run disk records R filename σ :
  heap σ !! records = Some R →
  generate_csv_on disk records filename σ =
    match disk filename with
    | Returned _ =>
        (Returned (),
         log (Print ("Saved CSV report to " +:+ filename))
           (log (WriteCsv filename (report_header :: (report_row <$> R))) σ))
    | Raised e => (Raised e, σ)
    end.
Proof.
  intros H. unfold generate_csv_on, to_csv_on. unfold_M. rewrite H.
  by destruct (disk filename).
Qed.

Lemma generate_plot_on_run disk records R filename σ :
  heap σ !! records = Some R →
  let S := sorted seq_len true R in
  generate_plot_on disk records filename σ =
    match disk filename with
    | Returned _ =>
        (Returned (),
         log (Print ("Saved plot to " +:+ filename))
           (log (Savefig filename
                   (mkFigure (20, 5) (SeqRecord.id <$> S) (seq_len <$> S) "o" 90
                      "GenBank Record Lengths" "Accession number" "Sequence length"))
              (set_heap (heap σ ++ [S]) σ)))
    | Raised e => (Raised e, set_heap (heap σ ++ [S]) σ)
    end.
Proof.
  intros H. unfold generate_plot_on, savefig_on. unfold_M. rewrite H. simpl.
  rewrite lookup_new_object. by destruct (disk filename).
Qed.

(** Over the file system that accepts every write, the methods are the
    ones above. *)
Lemma main_on_reliable W : main_on W reliable = main W.
Proof. reflexivity. Qed.

Lemma generate_csv_on_reliable : generate_csv_on reliable = generate_csv.
Proof. reflexivity. Qed.

Lemma generate_plot_on_reliable : generate_plot_on reliable = generate_plot.
Proof. reflexivity. Qed.

(** The run of [main_on] once the search has returned a count. *)
Lemma main_on_after_search W disk σ email api_key taxid min_text max_text rest
    min_len max_len name reply n w q :
  stdin σ = email :: api_key :: taxid :: min_text :: max_text :: rest →
  int min_text = Returned min_len →
  int max_text = Returned max_len →
  search_answers W taxid name reply n →
  n ≠ 0 →
  reply !! "WebEnv" = Some w →
  reply !! "QueryKey" = Some q →
  let kept := filter (λ rec, min_len ≤ seq_len rec ≤ max_len) (fetched_page W 0 200 w q) in
  let csv := "taxid_" +:+ taxid +:+ "_report.csv" in
  let png := "taxid_" +:+ taxid +:+ "_plot.png" in
  let table := WriteCsv csv (report_header :: (report_row <$> kept)) in
  let plot :=
    Savefig png
      (mkFigure (20, 5) (SeqRecord.id <$> sorted seq_len true kept)
         (seq_len <$> sorted seq_len true kept) "o" 90
         "GenBank Record Lengths" "Accession number" "Sequence length") in
  let evs := new_events σ (main_on W disk σ).2 in
  fetch_requests evs = [mkRequest "nucleotide" "gb" "text" 0 200 w q] ∧
  match kept with
  | [] => (main_on W disk σ).1 = Returned () ∧ file_events evs = []
  | _ :: _ =>
      match disk csv with
      | Raised e => (main_on W disk σ).1 = Raised e ∧ file_events evs = []
      | Returned _ =>
          match disk png with
          | Raised e => (main_on W disk σ).1 = Raised e ∧ file_events evs = [table]
          | Returned _ =>
              (main_on W disk σ).1 = Returned () ∧ file_events evs = [table; plot] ∧
              last (trace (main_on W disk σ).2) = Some (Print ("Saved plot to " +:+ png))
          end
      end
  end.
Proof.
  intros Hin Hmin Hmax Hans Hn Hw Hq kept csv png table plot evs.
  subst evs table plot csv png.
  destruct (main_on W disk σ) as [o σ'] eqn:X.
  unfold main_on, input, NCBIRetriever_init in X.
  unfold mbind, M_bind, mret, M_ret, modify in X. simpl in X.
  rewrite Hin in X. simpl in X. rewrite Hmin in X. simpl in X.
  rewrite Hmax in X. simpl in X.
  rewrite (search_taxid_count _ _ _ _ _ _ Hans) in X. cbv zeta in X.
  rewrite Hw, Hq in X. destruct (decide (n = 0)) as [|_]; [done|].
  simpl in X. rewrite bool_decide_eq_false_2 in X by done.
  erewrite fetch_records_session in X by reflexivity. cbv zeta in X.
  unfold fetched_page in kept. subst kept.
  unfold page_request in *. change (Z.min 200 500) with 200 in *.
  destruct (efetch W _) as [handle|e];
    [destruct (SeqIO_parse W handle) as [parsed|e]|].
  all: unfold read_list in X; simpl in X; rewrite lookup_new_object in X.
  all: erewrite filter_by_length_run in X by (simpl; apply lookup_new_object).
  all: simpl in X; rewrite lookup_new_object in X.
  all: try destruct (filter _ parsed) as [|r k] eqn:Hk.
  all: try (erewrite generate_csv_on_run in X by (simpl; apply lookup_new_object);
            destruct (disk ("taxid_" +:+ taxid +:+ "_report.csv")) as [[]|e1];
            [erewrite generate_plot_on_run in X by (simpl; apply lookup_new_object);
             destruct (disk ("taxid_" +:+ taxid +:+ "_plot.png")) as [[]|e2]|]).
  all: unfold print, modify in X; cbv zeta in X; injection X as <- <-.
  all: unfold new_events; simpl; rewrite <- !(assoc_L (++)), drop_app_length.
  all: split; [reflexivity|].
  all: repeat (split; [reflexivity|]); try reflexivity.
  all: rewrite !(assoc_L (++)); apply last_snoc_event.
Qed.


(** X10. When the five inputs are read, both bounds parse, the search
    returns a count, at least one fetched record has its length within
    the bounds and the file system accepts the two writes, [main] returns
    normally after it has asked for one page of at most 200 records from
    offset 0 and written, in this order, [taxid_<taxid>_report.csv] with
    the kept records in fetch order and [taxid_<taxid>_plot.png] with the
    same records by descending length. *)
Theorem main_writes_report W disk σ email api_key taxid min_text max_text rest
    min_len max_len name reply n w q :
  stdin σ = email :: api_key :: taxid :: min_text :: max_text :: rest →
  int min_text = Returned min_len →
  int max_text = Returned max_len →
  search_answers W taxid name reply n →
  n ≠ 0 →
  reply !! "WebEnv" = Some w →
  reply !! "QueryKey" = Some q →
  let kept := filter (λ rec, min_len ≤ seq_len rec ≤ max_len) (fetched_page W 0 200 w q) in
  kept ≠ [] →
  disk ("taxid_" +:+ taxid +:+ "_report.csv") = Returned () →
  disk ("taxid_" +:+ taxid +:+ "_plot.png") = Returned () →
  let evs := new_events σ (main_on W disk σ).2 in
  (main_on W disk σ).1 = Returned () ∧
  fetch_requests evs = [mkRequest "nucleotide" "gb" "text" 0 200 w q] ∧
  file_events evs =
    [WriteCsv ("taxid_" +:+ taxid +:+ "_report.csv")
       (report_header :: (report_row <$> kept));
     Savefig ("taxid_" +:+ taxid +:+ "_plot.png")
       (mkFigure (20, 5) (SeqRecord.id <$> sorted seq_len true kept)
          (seq_len <$> sorted seq_len true kept) "o" 90
          "GenBank Record Lengths" "Accession number" "Sequence length")] ∧
  last (trace (main_on W disk σ).2) =
    Some (Print ("Saved plot to " +:+ ("taxid_" +:+ taxid +:+ "_plot.png"))).
Proof.
  intros Hin Hmin Hmax Hans Hn Hw Hq kept Hkept Hcsv Hpng.
  pose proof (main_on_after_search W disk σ _ _ _ _ _ _ _ _ _ _ _ _ _
                Hin Hmin Hmax Hans Hn Hw Hq) as H.
  cbv zeta in H. fold kept in H. rewrite Hcsv, Hpng in H.
  destruct kept; [done|]. by destruct H as (? & ? & ? & ?).
Qed.

Lemma main_writes_report_witness :
  let σ := set_stdin ["me@example.org"; "key"; "9606"; " 10"; "2_0"] fresh_state in
  let kept := filter (λ rec, 10 ≤ seq_len rec ≤ 20) (fetched_page W_found 0 200 "WE2" "1") in
  let evs := new_events σ (main_on W_found disk_without_directory σ).2 in
  kept ≠ [] ∧
  disk_without_directory ("taxid_" +:+ "9606" +:+ "_report.csv") = Returned () ∧
  disk_without_directory ("taxid_" +:+ "9606" +:+ "_plot.png") = Returned () ∧
  (main_on W_found disk_without_directory σ).1 = Returned () ∧
  fetch_requests evs = [mkRequest "nucleotide" "gb" "text" 0 200 "WE2" "1"] ∧
  file_events evs =
    [WriteCsv ("taxid_" +:+ "9606" +:+ "_report.csv")
       (report_header :: (report_row <$> kept));
     Savefig ("taxid_" +:+ "9606" +:+ "_plot.png")
       (mkFigure (20, 5) (SeqRecord.id <$> sorted seq_len true kept)
          (seq_len <$> sorted seq_len true kept) "o" 90
          "GenBank Record Lengths" "Accession number" "Sequence length")] ∧
  last (trace (main_on W_found disk_without_directory σ).2) =
    Some (Print ("Saved plot to " +:+ ("taxid_" +:+ "9606" +:+ "_plot.png"))).
Proof.
  intros σ kept evs. split; [by vm_compute|].
  split; [reflexivity|]. split; [reflexivity|].
  apply (main_writes_report W_found disk_without_directory σ
           "me@example.org" "key" "9606" " 10" "2_0" []
           10 20 "Homo sapiens" _ 3 "WE2" "1" eq_refl eq_refl eq_refl W_found_answers);
    [lia|reflexivity|reflexivity|by vm_compute|reflexivity|reflexivity].
Defined.

(** X11. When the five inputs are read, both bounds parse and the search
    returns a count, but no fetched record has its length within the
    bounds (or the fetch failed and gave no record), [main] still returns
    normally: it has asked for its one page, writes no file and ends with
    the notice that nothing matched. *)
Theorem main_no_matches W σ email api_key taxid min_text max_text rest
    min_len max_len name reply n w q :
  stdin σ = email :: api_key :: taxid :: min_text :: max_text :: rest →
  int min_text = Returned min_len →
  int max_text = Returned max_len →
  search_answers W taxid name reply n →
  n ≠ 0 →
  reply !! "WebEnv" = Some w →
  reply !! "QueryKey" = Some q →
  filter (λ rec, min_len ≤ seq_len rec ≤ max_len) (fetched_page W 0 200 w q) = [] →
  let evs := new_events σ (main W σ).2 in
  (main W σ).1 = Returned () ∧
  fetch_requests evs = [mkRequest "nucleotide" "gb" "text" 0 200 w q] ∧
  file_events evs = [] ∧
  last (trace (main W σ).2) = Some (Print "No records matched the length criteria.").
Proof.
  intros Hin Hmin Hmax Hans Hn Hw Hq Hkept.
  pose proof (main_after_search W σ _ _ _ _ _ _ _ _ _ _ _ _ _
                Hin Hmin Hmax Hans Hn Hw Hq) as H.
  cbv zeta in H. by rewrite Hkept in H.
Qed.

Lemma W_garbled_answers :
  search_answers W_garbled "9606" "Homo sapiens"
    (<["Count" := "3"]> (<["WebEnv" := "WE2"]> {[ "QueryKey" := "1" ]})) 3.
Proof. by exists {[ "ScientificName" := "Homo sapiens" ]}, [], "3". Defined.

Lemma main_no_matches_witness :
  let σ := set_stdin ["me@example.org"; "key"; "9606"; "10"; "20"] fresh_state in
  let evs := new_events σ (main W_garbled σ).2 in
  (main W_garbled σ).1 = Returned () ∧
  fetch_requests evs = [mkRequest "nucleotide" "gb" "text" 0 200 "WE2" "1"] ∧
  file_events evs = [] ∧
  last (trace (main W_garbled σ).2) = Some (Print "No records matched the length criteria.").
Proof.
  intros σ evs.
  apply (main_no_matches W_garbled σ "me@example.org" "key" "9606" "10" "20" []
           10 20 "Homo sapiens" _ 3 "WE2" "1" eq_refl eq_refl eq_refl W_garbled_answers);
    [lia|reflexivity..].
Defined.



(** The run that the sample file systems refuse: for the taxon [no/such]
    the report cannot be written and [main_on] raises before any file
    exists; for the taxon 9606 the plot cannot be written and [main_on]
    raises with the report written. *)
Example main_on_refused_writes :
  let σ1 := set_stdin ["me@example.org"; "key"; "no/such"; "10"; "20"] fresh_state in
  let σ2 := set_stdin ["me@example.org"; "key"; "9606"; "10"; "20"] fresh_state in
  (main_on W_found disk_without_directory σ1).1 = Raised missing_directory ∧
  file_events (trace (main_on W_found disk_without_directory σ1).2) = [] ∧
  (main_on W_found disk_without_plot σ2).1 = Raised (OSError "Permission denied") ∧
  file_events (trace (main_on W_found disk_without_plot σ2).2) =
    [WriteCsv "taxid_9606_report.csv"
       [ [CStr "Accession number"; CStr "Length"; CStr "Description"];
         [CStr "A2"; CInt 15; CStr "Homo sapiens clone 2"] ]].
Proof. vm_compute. done. Qed.

(** X13. When a length bound is not an integer literal, [main] raises the
    [ValueError] of the conversion; nothing catches it.  By then the
    credentials are stored, but the service was never contacted and no
    file was written. *)
Theorem main_bad_bound W σ email api_key taxid min_text rest e :
  stdin σ = email :: api_key :: taxid :: min_text :: rest →
  (int min_text = Raised e ∨
   ∃ min_len max_text rest',
     int min_text = Returned min_len ∧ rest = max_text :: rest' ∧
     int max_text = Raised e) →
  let σ' := (main W σ).2 in
  (main W σ).1 = Raised e ∧
  remote_requests (new_events σ σ') = [] ∧
  file_events (new_events σ σ') = [] ∧
  Entrez_email σ' = Some email ∧ Entrez_api_key σ' = Some api_key ∧
  Entrez_tool σ' = Some "BioScriptEx10".
Proof.
  intros Hin [Hmin | (min_len & max_text & rest' & Hmin & -> & Hmax)]; cbv zeta;
    unfold main, input, NCBIRetriever_init; unfold_M; simpl;
    rewrite Hin; simpl; rewrite Hmin; simpl; rewrite ?Hmax; simpl;
    (split; [done|]);
    unfold new_events; simpl; rewrite <- !(assoc_L (++)), drop_app_length; done.
Qed.

Lemma main_bad_bound_witness :
  let σ := set_stdin ["me@example.org"; "key"; "9606"; "10"; "2e3"] fresh_state in
  let σ' := (main W_found σ).2 in
  (main W_found σ).1 = Raised (ValueError "2e3") ∧
  remote_requests (new_events σ σ') = [] ∧
  file_events (new_events σ σ') = [] ∧
  Entrez_email σ' = Some "me@example.org" ∧ Entrez_api_key σ' = Some "key" ∧
  Entrez_tool σ' = Some "BioScriptEx10".
Proof.
  intros σ.
  apply (main_bad_bound W_found σ "me@example.org" "key" "9606" "10" ["2e3"]
           (ValueError "2e3") eq_refl).
  right. by exists 10, "2e3", [].
Defined.

(** X14. When the input ends before the five lines are read (fewer than
    four lines, or four lines of which the fourth is an integer), [main]
    raises [EOFError] without contacting the service or writing a file. *)
Theorem main_end_of_input W σ :
  ((length (stdin σ) < 4)%nat ∨
   ∃ email api_key taxid min_text min_len,
     stdin σ = [email; api_key; taxid; min_text] ∧ int min_text = Returned min_len) →
  (main W σ).1 = Raised EOFError ∧
  remote_requests (new_events σ (main W σ).2) = [] ∧
  file_events (new_events σ (main W σ).2) = [].
Proof.
  intros [Hlen | (email & api_key & taxid & min_text & min_len & Hin & Hmin)];
    unfold main, input, NCBIRetriever_init; unfold_M; simpl.
  - destruct (stdin σ) as [|a [|b [|c [|d l]]]]; simpl in *; try lia;
      (split; [done|]);
      unfold new_events; simpl; rewrite <- ?(assoc_L (++)), drop_app_length; done.
  - rewrite Hin. simpl. rewrite Hmin. simpl.
    (split; [done|]).
    unfold new_events; simpl; rewrite <- !(assoc_L (++)), drop_app_length; done.
Qed.

Lemma main_end_of_input_witness :
  let σ := set_stdin ["me@example.org"; "key"; "9606"; "10"] fresh_state in
  (main W_found σ).1 = Raised EOFError ∧
  remote_requests (new_events σ (main W_found σ).2) = [] ∧
  file_events (new_events σ (main W_found σ).2) = [].
Proof.
  intros σ. apply (main_end_of_input W_found σ).
  right. by exists "me@example.org", "key", "9606", "10", 10.
Defined.

(** ** [filter_by_length], composed *)

(** X15. Filtering with the bounds [[lo1, hi1]] and then the result with
    [[lo2, hi2]] gives the records that one filtering of the original list
    with the intersection of the two ranges gives, in the same order; so
    the two filters can be applied in either order. *)
Theorem filter_by_length_intersection records R lo1 hi1 lo2 hi2 σ :
  heap σ !! records = Some R →
  ∃ once twice direct σ1 σ2 σ3 K,
    filter_by_length records lo1 hi1 σ = (Returned once, σ1) ∧
    filter_by_length once lo2 hi2 σ1 = (Returned twice, σ2) ∧
    filter_by_length records (Z.max lo1 lo2) (Z.min hi1 hi2) σ = (Returned direct, σ3) ∧
    heap σ2 !! twice = Some K ∧
    heap σ3 !! direct = Some K.
Proof.
  intros H.
  rewrite (filter_by_length_run lo1 hi1 records R σ H).
  rewrite (filter_by_length_run _ _ records R σ H).
  eexists _, _, _, _, _, _, _. split; [reflexivity|].
  erewrite filter_by_length_run by (simpl; apply lookup_new_object).
  split; [reflexivity|]. split; [reflexivity|]. simpl.
  split; [|apply lookup_new_object].
  assert (filter (λ rec, lo2 ≤ seq_len rec ≤ hi2)
            (filter (λ rec, lo1 ≤ seq_len rec ≤ hi1) R)
          = filter (λ rec, Z.max lo1 lo2 ≤ seq_len rec ≤ Z.min hi1 hi2) R) as ->.
  { rewrite list_filter_filter. apply list_filter_iff. intros rec. lia. }
  apply lookup_new_object.
Qed.

Lemma filter_by_length_intersection_witness :
  ∃ once twice direct σ1 σ2 σ3 K,
    filter_by_length 0%nat 10 40 store_state = (Returned once, σ1) ∧
    filter_by_length once 0 20 σ1 = (Returned twice, σ2) ∧
    filter_by_length 0%nat (Z.max 10 0) (Z.min 40 20) store_state = (Returned direct, σ3) ∧
    heap σ2 !! twice = Some K ∧
    heap σ3 !! direct = Some K.
Proof.
  apply (filter_by_length_intersection 0%nat four_records 10 40 0 20 store_state).
  reflexivity.
Defined.

(** X16. Widening the bounds never loses a record: the result for
    [[lo, hi]] is a subsequence of the result for any wider range. *)
Theorem filter_by_length_wider records R lo hi lo' hi' σ :
  heap σ !! records = Some R →
  lo' ≤ lo → hi ≤ hi' →
  ∃ narrow wide σ1 σ2 K K',
    filter_by_length records lo hi σ = (Returned narrow, σ1) ∧
    filter_by_length records lo' hi' σ = (Returned wide, σ2) ∧
    heap σ1 !! narrow = Some K ∧
    heap σ2 !! wide = Some K' ∧
    K `sublist_of` K'.
Proof.
  intros H Hlo Hhi.
  rewrite (filter_by_length_run lo hi records R σ H).
  rewrite (filter_by_length_run lo' hi' records R σ H).
  eexists _, _, _, _, _, _. split; [reflexivity|]. split; [reflexivity|].
  simpl. split; [apply lookup_new_object|]. split; [apply lookup_new_object|].
  clear H. induction R as [|r R IH]; [done|].
  rewrite !filter_cons. repeat case_decide; try lia.
  - by apply sublist_skip.
  - by apply sublist_cons.
  - done.
Qed.

Lemma filter_by_length_wider_witness :
  ∃ narrow wide σ1 σ2 K K',
    filter_by_length 0%nat 10 20 store_state = (Returned narrow, σ1) ∧
    filter_by_length 0%nat 5 30 store_state = (Returned wide, σ2) ∧
    heap σ1 !! narrow = Some K ∧
    heap σ2 !! wide = Some K' ∧
    K `sublist_of` K'.
Proof.
  apply (filter_by_length_wider 0%nat four_records 10 20 5 30 store_state);
    [reflexivity|lia|lia].
Defined.

(** ** The report, composed *)

(** X17. Plotting does not disturb the report: [generate_csv] called
    after [generate_plot] on the same list object writes the rows of the
    records in their original order, not in the plot's order. *)
Theorem generate_csv_after_plot records R plot_file csv_file σ :
  heap σ !! records = Some R →
  ∃ σ1 σ2,
    generate_plot records plot_file σ = (Returned (), σ1) ∧
    generate_csv records csv_file σ1 = (Returned (), σ2) ∧
    file_events (new_events σ1 σ2) =
      [WriteCsv csv_file (report_header :: (report_row <$> R))].
Proof.
  intros H. rewrite (generate_plot_run records R plot_file σ H). cbv zeta.
  eexists _, _. split; [reflexivity|].
  erewrite generate_csv_run by (simpl; by apply lookup_old_object).
  split; [reflexivity|].
  erewrite new_events_app; [|simpl; symmetry; apply (assoc_L (++))].
  reflexivity.
Qed.

Lemma generate_csv_after_plot_witness :
  ∃ σ1 σ2,
    generate_plot 0%nat "p.png" store_state = (Returned (), σ1) ∧
    generate_csv 0%nat "r.csv" σ1 = (Returned (), σ2) ∧
    file_events (new_events σ1 σ2) =
      [WriteCsv "r.csv" (report_header :: (report_row <$> four_records))].
Proof.
  apply (generate_csv_after_plot 0%nat four_records "p.png" "r.csv" store_state).
  reflexivity.
Defined.

Lemma sorted_of_ordered {A} (key : A → Z) (reverse : bool) (l : list A) :
  StronglySorted (in_order key reverse) l → sorted key reverse l = l.
Proof.
  induction 1 as [|x l Hl IH Hx]; [done|].
  simpl. rewrite IH. destruct Hx as [|y l Hxy _]; [done|].
  simpl. unfold precedes, in_order in *. destruct reverse; by rewrite (proj2 (Z.ltb_ge _ _)).
Qed.

(** X18. When the records already come by non-increasing length,
    [generate_plot] plots them in the order given. *)
Theorem generate_plot_of_ordered records R filename σ :
  heap σ !! records = Some R →
  StronglySorted (λ a b, seq_len b ≤ seq_len a) R →
  ∃ fig,
    file_events (new_events σ (generate_plot records filename σ).2) =
      [Savefig filename fig] ∧
    plot_x fig = SeqRecord.id <$> R ∧
    plot_y fig = seq_len <$> R.
Proof.
  intros H Hsorted. rewrite (generate_plot_run records R filename σ H). cbv zeta.
  rewrite (sorted_of_ordered seq_len true R Hsorted).
  eexists. split.
  - unfold new_events. simpl. by rewrite <- !(assoc_L (++)), drop_app_length.
  - done.
Qed.

Lemma generate_plot_of_ordered_witness :
  let σ := set_heap [[record_A3; record_A2; record_A4; record_A1]] store_state in
  ∃ fig,
    file_events (new_events σ (generate_plot 0%nat "p.png" σ).2) =
      [Savefig "p.png" fig] ∧
    plot_x fig = SeqRecord.id <$> [record_A3; record_A2; record_A4; record_A1] ∧
    plot_y fig = seq_len <$> [record_A3; record_A2; record_A4; record_A1].
Proof.
  intros σ.
  apply (generate_plot_of_ordered 0%nat [record_A3; record_A2; record_A4; record_A1]
           "p.png" σ eq_refl).
  repeat (constructor; [|repeat (constructor; [by vm_compute|]); constructor]).
  constructor.
Defined.

(** ** Reading a count back *)

Lemma digit_char (d : N) :
  (d < 10)%N →
  is_space (pretty_N_char d) = false ∧
  pretty_N_char d ≠ "_"%char ∧
  pretty_N_char d ≠ "-"%char ∧
  pretty_N_char d ≠ "+"%char ∧
  digit_val (pretty_N_char d) = Some (Z.of_N d).
Proof.
  intros Hd.
  assert (d = 0 ∨ d = 1 ∨ d = 2 ∨ d = 3 ∨ d = 4 ∨ d = 5 ∨ d = 6 ∨ d = 7
          ∨ d = 8 ∨ d = 9)%N as Hcases by lia.
  destruct_or!; subst d; vm_compute; repeat split; congruence.
Qed.

Lemma lstrip_no_space l : Forall (λ a, is_space a = false) l → lstrip l = l.
Proof. destruct 1 as [|a l Ha _]; [done|]. simpl. by rewrite Ha. Qed.

Lemma strip_no_space l : Forall (λ a, is_space a = false) l → strip l = l.
Proof.
  intros H. unfold strip. rewrite (lstrip_no_space l H).
  rewrite lstrip_no_space by by apply Forall_reverse.
  apply reverse_involutive.
Qed.

Lemma plain_no_space l : Forall plain l → Forall (λ a, is_space a = false) l.
Proof. intros H. eapply Forall_impl; [exact H|]. by intros a [? _]. Qed.

Lemma plain_digit_count l :
  Forall plain l → length (filter (λ a, a ≠ "_"%char) l) = length l.
Proof.
  induction 1 as [|a l (_ & _ & _ & Ha) _ IH]; [done|].
  rewrite filter_cons, decide_True by done. simpl. by rewrite IH.
Qed.

Lemma pretty_N_go_plain x s :
  Forall plain (chars s) → Forall plain (chars (pretty_N_go x s)).
Proof.
  revert s. induction (N.lt_wf_0 x) as [x _ IH]; intros s Hs.
  assert (x = 0 ∨ 0 < x)%N as [->|Hx] by lia; [by rewrite pretty_N_go_0|].
  rewrite pretty_N_go_step by done. apply IH; [by apply N.div_lt|].
  simpl. constructor; [|done].
  destruct (digit_char (x `mod` 10)) as (? & ? & ? & ? & _); [|done].
  by apply N.mod_lt.
Qed.

(** Scanning the [k] digits of [x] multiplies the accumulator by [10 ^ k]
    and adds [x]; and [x] is not below [10 ^ (k - 1)]. *)
Lemma parse_digits_pretty_N_go x s :
  (0 < x)%N →
  ∃ k : nat,
    (∀ acc b,
       parse_digits acc b (chars (pretty_N_go x s))
       = parse_digits (acc * 10 ^ Z.of_nat k + Z.of_N x) true (chars s)) ∧
    length (chars (pretty_N_go x s)) = (k + length (chars s))%nat ∧
    10 ^ Z.of_nat k ≤ 10 * Z.of_N x.
Proof.
  revert s. induction (N.lt_wf_0 x) as [x _ IH]; intros s Hx.
  rewrite pretty_N_go_step by done.
  destruct (digit_char (x `mod` 10)) as (_ & Hu & _ & _ & Hd);
    [by apply N.mod_lt|].
  pose proof (N.div_mod x 10 ltac:(done)) as Hdiv.
  destruct (N.eq_0_gt_0_cases (x `div` 10)) as [H0|Hpos].
  - rewrite H0, pretty_N_go_0. exists 1%nat. split; [|split].
    + intros acc b. simpl.
      rewrite decide_False by done. rewrite Hd. f_equal.
      change (10 ^ Z.of_nat 1) with 10. rewrite H0 in Hdiv. lia.
    + done.
    + change (10 ^ Z.of_nat 1) with 10. lia.
  - destruct (IH (x `div` 10)%N ltac:(by apply N.div_lt)
                (String (pretty_N_char (x `mod` 10)) s) Hpos) as (k & Hk & Hlen & Hle).
    exists (S k). split; [|split].
    + intros acc b. rewrite Hk. simpl.
      rewrite decide_False by done. rewrite Hd. f_equal.
      rewrite Nat2Z.inj_succ, Z.pow_succ_r by lia. lia.
    + rewrite Hlen. simpl. lia.
    + rewrite Nat2Z.inj_succ, Z.pow_succ_r by lia.
      assert (Z.of_N x = Z.of_N (10 * x `div` 10 + x `mod` 10)) as Hx10
        by congruence.
      rewrite N2Z.inj_add, N2Z.inj_mul in Hx10.
      pose proof (N2Z.is_nonneg (x `mod` 10)). lia.
Qed.

Lemma max_str_digits_nonneg : 0 ≤ max_str_digits.
Proof. done. Qed.

(** [int] reads the decimal text of an integer back, as long as the text
    has no more digits than the limit. *)
Lemma int_pretty (n : Z) :
  Z.abs n < 10 ^ max_str_digits → int (pretty n) = Returned n.
Proof.
  assert (∀ p, Z.pos p < 10 ^ max_str_digits →
            ∃ ds, chars (pretty (N.pos p)) = ds ∧ Forall plain ds ∧
                  parse_digits 0 false ds = Some (Z.pos p) ∧
                  Z.of_nat (length ds) ≤ max_str_digits) as Hpos.
  { intros p Hp. eexists. split; [reflexivity|].
    unfold pretty, pretty_N. rewrite decide_False by done.
    split; [by apply pretty_N_go_plain|].
    destruct (parse_digits_pretty_N_go (N.pos p) "" ltac:(done))
      as (k & Hk & Hlen & Hle).
    split; [rewrite Hk; simpl; f_equal; lia|].
    rewrite Hlen. simpl. rewrite Nat.add_0_r.
    assert (10 ^ Z.of_nat k < 10 ^ (max_str_digits + 1)) as Hlt.
    { rewrite Z.pow_add_r by (pose proof max_str_digits_nonneg; lia).
      change (10 ^ 1) with 10. change (Z.of_N (N.pos p)) with (Z.pos p) in Hle. lia. }
    apply Z.pow_lt_mono_r_iff in Hlt; [lia|lia|].
    pose proof max_str_digits_nonneg. lia. }
  intros Hn. destruct n as [|p|p]; [done|..].
  - destruct (Hpos p Hn) as (ds & Hds & Hplain & Hparse & Hlen).
    unfold int. change (pretty (Z.pos p)) with (pretty (N.pos p)).
    fold (chars (pretty (N.pos p))).
    rewrite Hds, (strip_no_space _ (plain_no_space _ Hplain)).
    destruct Hplain as [|a r (Hs & Hm & Hp & Hu) Hr]; [done|].
    rewrite decide_False by done. rewrite decide_False by done.
    rewrite Hparse.
    rewrite plain_digit_count by (constructor; by eauto).
    by rewrite (proj2 (Z.ltb_ge _ _)) by done.
  - destruct (Hpos p Hn) as (ds & Hds & Hplain & Hparse & Hlen).
    unfold int. change (pretty (Z.neg p)) with (String "-" (pretty (N.pos p))).
    fold (chars (String "-" (pretty (N.pos p)))).
    change (chars (String "-" (pretty (N.pos p))))
      with ("-"%char :: chars (pretty (N.pos p))).
    rewrite Hds.
    rewrite strip_no_space
      by (constructor; [done|by apply plain_no_space]).
    rewrite decide_True by done. rewrite Hparse.
    rewrite plain_digit_count by done.
    by rewrite (proj2 (Z.ltb_ge _ _)) by done.
Qed.

(** X19. When the reply's [Count] is the decimal text of an integer [n]
    other than 0, of at most 4300 digits (the limit of [int] for text),
    and both tokens are there, [search_taxid] returns exactly [n], stores
    it, and its message shows the same text. *)
Theorem search_taxid_reads_count W taxid name reply n w q σ :
  organism W taxid = Some name →
  esearch W (search_term taxid) = Returned reply →
  reply !! "Count" = Some (pretty n) →
  n ≠ 0 →
  Z.abs n < 10 ^ 4300 →
  reply !! "WebEnv" = Some w →
  reply !! "QueryKey" = Some q →
  let σ' := (search_taxid W taxid σ).2 in
  (search_taxid W taxid σ).1 = Returned (Some n) ∧
  count σ' = Some n ∧
  last (trace σ') =
    Some (Print ("Found " +:+ pretty n +:+ " records for " +:+ name
                 +:+ " (TaxID: " +:+ taxid +:+ ")")).
Proof.
  intros Horg Hsearch Hcount Hn Hsize Hw Hq.
  assert (search_answers W taxid name reply n) as Hans.
  { unfold organism in Horg.
    destruct (taxonomy_lookup W taxid) as [[|record rest]|] eqn:Htax; try done.
    exists record, rest, (pretty n). repeat split; try done.
    by apply int_pretty. }
  rewrite (search_taxid_count _ _ _ _ _ σ Hans). cbv zeta.
  rewrite Hw, Hq. destruct (decide (n = 0)); [done|].
  simpl. repeat split; try done. apply last_snoc_event.
Qed.

Lemma search_taxid_reads_count_witness :
  Z.abs 3 < 10 ^ 4300 ∧
  let σ' := (search_taxid W_found "9606" fresh_state).2 in
  (search_taxid W_found "9606" fresh_state).1 = Returned (Some 3) ∧
  count σ' = Some 3 ∧
  last (trace σ') =
    Some (Print ("Found " +:+ pretty 3 +:+ " records for " +:+ "Homo sapiens"
                 +:+ " (TaxID: " +:+ "9606" +:+ ")")).
Proof.
  assert (Z.abs 3 < 10 ^ 4300) as Hsize by (vm_compute; reflexivity).
  split; [exact Hsize|].
  apply (search_taxid_reads_count W_found "9606" "Homo sapiens"
           (<["Count" := "3"]> (<["WebEnv" := "WE2"]> {[ "QueryKey" := "1" ]}))
           3 "WE2" "1" fresh_state);
    [reflexivity|reflexivity|reflexivity|lia|exact Hsize|reflexivity|reflexivity].
Defined.

(** At the limit: text of 4300 digits is converted, text of 4301 digits
    is refused. *)
Example int_digit_limit :
  (∃ n, int (nines 4300) = Returned n) ∧
  int (nines 4301) = Raised (ValueError (nines 4301)).
Proof. split; [eexists|]; vm_compute; reflexivity. Qed.
